(** * Engine supervisor and evaluation service of [engine]

    A shallow embedding of [src/config.py] and [src/evaluator.py]: the
    module-level [_engine] slot, the lifecycle helpers [_warmup_engine],
    [_spawn_engine], [_hard_reset_engine], [_get_engine], [close_engine] and
    the public [evaluate_position].

    Python values are a small inductive type, dictionaries are finite maps
    with string keys, and the code runs in a state-and-exception monad whose
    state holds the [_engine] slot, the state of the external engine process
    and the chronological list of the external calls made so far.  Floats
    are kept as exact rationals; the one float operation of the code, the
    division [time_ms / 1000], raises as Python's does when its result is
    beyond the floats. *)

From Stdlib Require Import ZArith QArith Lia Ascii String.
From stdpp Require Import base strings gmap list.

Set Warnings "-register-all".
Set Default Proof Using "Type".

Local Open Scope Z_scope.
Local Open Scope string_scope.

(** ** Python values and exceptions *)

Inductive PyVal : Type :=
| PyNone
| PyBool (b : bool)
| PyInt (n : Z)
| PyFloat (q : Q)
| PyStr (s : string)
| PyList (l : list PyVal)
| PyDict (d : gmap string PyVal).

(** [d.get(key, default)]. *)
Definition dict_get (d : gmap string PyVal) (key : string) (default : PyVal) : PyVal :=
  match d !! key with
  | Some v => v
  | None => default
  end.

(** [isinstance(v, str)]. *)
Definition isinstance_str (v : PyVal) : bool :=
  match v with
  | PyStr _ => true
  | _ => false
  end.

(** [isinstance(v, int)]: [bool] is a subclass of [int] in Python, so both
    [True] and [False] are instances. *)
Definition isinstance_int (v : PyVal) : bool :=
  match v with
  | PyInt _ | PyBool _ => true
  | _ => false
  end.

(** The integer an [int] instance stands for in arithmetic and comparisons
    ([True] is 1 and [False] is 0); only used on [int] instances. *)
Definition int_of (v : PyVal) : Z :=
  match v with
  | PyInt n => n
  | PyBool b => Z.b2z b
  | _ => 0
  end.

(** An exception object: its class name ([type(e).__name__]) and message. *)
Record Exception : Type := mkException { exc_name : string; exc_msg : string }.

Definition ValueError (msg : string) : Exception := mkException "ValueError" msg.
Definition KeyError (msg : string) : Exception := mkException "KeyError" msg.
Definition OverflowError (msg : string) : Exception := mkException "OverflowError" msg.

(** What running a piece of Python gives: a value, or a raised exception. *)
Inductive Outcome (A : Type) : Type :=
| Return (a : A)
| Raise (e : Exception).
Arguments Return {A} a.
Arguments Raise {A} e.

(** [a / b] for two [int]s, [b] positive: Python's true division gives the
    float nearest to the quotient, and raises [OverflowError] when that is
    beyond the floats, that is when the quotient reaches [2^1024 - 2^970],
    halfway between the largest float and [2^1024].  The float it gives is
    kept as the exact quotient. *)
Definition int_truediv (a : Z) (b : positive) : Outcome Q :=
  if (Z.pos b * (2 ^ 1024 - 2 ^ 970) <=? Z.abs a)%Z then
    Raise (OverflowError "integer division result too large for a float")
  else
    Return (a # b).

(** ** State and exception monad *)

Module Py.

Definition M (S A : Type) : Type := S -> Outcome A * S.

Definition ret {S A} (a : A) : M S A := fun st => (Return a, st).

Definition raise {S A} (e : Exception) : M S A := fun st => (Raise e, st).

Definition bind {S A B} (m : M S A) (k : A -> M S B) : M S B :=
  fun st =>
    match m st with
    | (Return a, st') => k a st'
    | (Raise e, st') => (Raise e, st')
    end.

(** [try: body  except Exception as e: handler e]. *)
Definition try_except {S A} (body : M S A) (handler : Exception -> M S A) : M S A :=
  fun st =>
    match body st with
    | (Return a, st') => (Return a, st')
    | (Raise e, st') => handler e st'
    end.

(** A pure computation that may raise, run inside the monad. *)
Definition lift {S A} (o : Outcome A) : M S A := fun st => (o, st).

End Py.

Declare Scope py_scope.
Delimit Scope py_scope with py.
Notation "x <- m ;; k" := (Py.bind m (fun x => k))
  (at level 100, m at next level, right associativity) : py_scope.
Notation "m ;;; k" := (Py.bind m (fun _ => k))
  (at level 100, right associativity) : py_scope.

(** ** [config.py] *)

Module Config.

Definition ENGINE_FILE : string := "stockfish-windows-x86-64-avx2.exe".

Definition DEFAULT_TIME_MS : Z := 100.

Definition STOCKFISH_CONFIG : gmap string PyVal :=
  {[ "Skill Level" := PyInt 20;
     "Threads" := PyInt 6;
     "Hash" := PyInt 512;
     "Move Overhead" := PyInt 30;
     "SyzygyPath" := PyStr "";
     "SyzygyProbeDepth" := PyInt 1;
     "Syzygy50MoveRule" := PyBool true ]}.

Definition ANALYSIS_STAGES_MS : list Z := [300; 1500; 5000].

End Config.

(** ** The external collaborators *)

(** Colours are Python booleans: [chess.WHITE = True], [chess.BLACK = False]. *)
Definition Color : Type := bool.

(** Modelled from the spec: the score objects of the external engine
    transport ([chess.engine.Score] and [chess.engine.PovScore]) are not part
    of the repository.  A score is a centipawn value or a forced mate with
    its distance (negative when being mated); [MateGiven] is the transport's
    score of a position where the mate has already been delivered. *)
Inductive Score : Type :=
| Cp (cp : Z)
| Mate (moves : Z)
| MateGiven.

(** [score.mate()]. *)
Definition Score_mate (s : Score) : option Z :=
  match s with
  | Cp _ => None
  | Mate n => Some n
  | MateGiven => Some 0
  end.

(** [score.score()] with no [mate_score] argument. *)
Definition Score_score (s : Score) : option Z :=
  match s with
  | Cp c => Some c
  | Mate _ | MateGiven => None
  end.

(** [score.is_mate()], that is [score.mate() is not None]. *)
Definition Score_is_mate (s : Score) : bool :=
  match Score_mate s with
  | Some _ => true
  | None => false
  end.

(** [-score]. *)
Definition Score_neg (s : Score) : Score :=
  match s with
  | Cp c => Cp (- c)
  | Mate n => if Z.eqb n 0 then MateGiven else Mate (- n)
  | MateGiven => Mate 0
  end.

Record PovScore : Type := mkPovScore { relative : Score; turn : Color }.

(** [povscore.pov(color)]. *)
Definition pov (ps : PovScore) (color : Color) : Score :=
  if Bool.eqb (turn ps) color then relative ps else Score_neg (relative ps).

(** [chess.engine.Limit(time=...)], the time in seconds. *)
Record Limit : Type := mkLimit { limit_time : Q }.

(** ChessRules: [chess.Board(fen)] (which raises on a malformed position),
    [chess.Board()], [board.turn] and [move.uci()]. *)
Class ChessRules : Type := {
  Board : Type;
  Move : Type;
  chess_Board : string -> Outcome Board;
  chess_Board_start : Board;
  Board_turn : Board -> Color;
  Move_uci : Move -> string;
}.

(** The analysis information [engine.analyse] returns: a dictionary whose
    ["pv"] and ["score"] entries may each be missing. *)
Record InfoDict `{ChessRules} : Type := mkInfo {
  info_pv : option (list Move);
  info_score : option PovScore;
}.

(** EngineTransport: the four operations on the external process.  Each one
    may raise, and each one may change the state [World] of the process and
    its surroundings. *)
Class EngineTransport `{ChessRules} : Type := {
  World : Type;
  Handle : Type;
  popen_uci : string -> World -> Outcome Handle * World;
  configure : Handle -> gmap string PyVal -> World -> Outcome () * World;
  analyse : Handle -> Board -> Limit -> World -> Outcome InfoDict * World;
  quit : Handle -> World -> Outcome () * World;
}.

(** ** [evaluator.py] *)

Section Evaluator.

Context `{ET : EngineTransport}.

(** Directory of the package, with its trailing separator:
    [str(Path(__file__).parent / ...)] depends on where it is installed. *)
Variable package_dir : string.

Definition ENGINE_PATH : string := package_dir ++ Config.ENGINE_FILE.

(** Every call that leaves the module, in the order the code makes it. *)
Inductive LogLevel : Type := WARNING | ERROR | EXCEPTION.

Inductive Event : Type :=
| EvLog (level : LogLevel) (msg : string)
| EvSleep (seconds : Q)
| EvPopen (path : string)
| EvConfigure (engine : Handle)
| EvAnalyse (engine : Handle) (board : Board) (limit : Limit)
| EvQuit (engine : Handle).

(** The module state: the global [_engine], the external world and the
    calls made so far, oldest first. *)
Record State : Type := mkState {
  _engine : option Handle;
  world : World;
  trace : list Event;
}.

Local Abbreviation M := (Py.M State).

Definition emit (ev : Event) : M () :=
  fun st => (Return (), mkState (_engine st) (world st) (trace st ++ [ev])).

(** A transport operation: recorded in the trace, then run on the world. *)
Definition call {A} (ev : Event) (op : World -> Outcome A * World) : M A :=
  fun st =>
    let '(r, w) := op (world st) in
    (r, mkState (_engine st) w (trace st ++ [ev])).

Definition read_engine : M (option Handle) :=
  fun st => (Return (_engine st), st).

Definition write_engine (e : option Handle) : M () :=
  fun st => (Return (), mkState e (world st) (trace st)).

Definition logger_warning (msg : string) : M () := emit (EvLog WARNING msg).
Definition logger_error (msg : string) : M () := emit (EvLog ERROR msg).
Definition logger_exception (msg : string) : M () := emit (EvLog EXCEPTION msg).
Definition time_sleep (seconds : Q) : M () := emit (EvSleep seconds).

Definition engine_popen_uci (path : string) : M Handle :=
  call (EvPopen path) (popen_uci path).
Definition engine_configure (engine : Handle) (options : gmap string PyVal) : M () :=
  call (EvConfigure engine) (configure engine options).
Definition engine_analyse (engine : Handle) (board : Board) (limit : Limit) : M InfoDict :=
  call (EvAnalyse engine board limit) (analyse engine board limit).
Definition engine_quit (engine : Handle) : M () :=
  call (EvQuit engine) (quit engine).

Local Open Scope py_scope.

Definition _warmup_engine (engine : Handle) : M () :=
  time_sleep (3 # 10) ;;;
  Py.try_except
    (_ <- engine_analyse engine chess_Board_start (mkLimit (1 # 100)) ;;
     Py.ret ())
    (fun _ => Py.ret ()).

Definition _spawn_engine : M Handle :=
  logger_warning "ENGINE: spawning new Stockfish process" ;;;
  engine <- engine_popen_uci ENGINE_PATH ;;
  engine_configure engine Config.STOCKFISH_CONFIG ;;;
  _warmup_engine engine ;;;
  Py.ret engine.

Definition _hard_reset_engine (reason : string) : M () :=
  logger_error ("ENGINE HARD RESET: " ++ reason) ;;;
  held <- read_engine ;;
  match held with
  | Some engine => Py.try_except (engine_quit engine) (fun _ => Py.ret ())
  | None => Py.ret ()
  end ;;;
  write_engine None.

Definition _get_engine : M Handle :=
  held <- read_engine ;;
  match held with
  | None =>
      engine <- _spawn_engine ;;
      write_engine (Some engine) ;;;
      Py.ret engine
  | Some engine => Py.ret engine
  end.

Definition close_engine : M () := _hard_reset_engine "manual close".

(** The three dictionaries [evaluate_position] returns. *)
Definition result_dict (type : string) (value best_move_uci : PyVal) (ok : bool) : PyVal :=
  PyDict {[ "eval" := PyDict {[ "type" := PyStr type; "value" := value ]};
            "best_move_uci" := best_move_uci;
            "ok" := PyBool ok ]}.

(** An [Optional[int]] as a Python value. *)
Definition py_optional_int (o : option Z) : PyVal :=
  match o with
  | Some n => PyInt n
  | None => PyNone
  end.

Definition evaluate_position (input_data : gmap string PyVal) : M PyVal :=
  let fen := dict_get input_data "fen" PyNone in
  let time_ms := dict_get input_data "time_ms" (PyInt Config.DEFAULT_TIME_MS) in
  match fen with
  | PyStr fen =>
      if negb (isinstance_int time_ms) || (int_of time_ms <=? 0)%Z then
        Py.raise (ValueError "time_ms must be a positive integer")
      else
        board <- Py.lift (chess_Board fen) ;;
        let side_to_move := Board_turn board in
        seconds <- Py.lift (int_truediv (int_of time_ms) 1000) ;;
        let limit := mkLimit seconds in
        Py.try_except
          (engine <- _get_engine ;;
           info <- engine_analyse engine board limit ;;
           let pv := info_pv info in
           let best_move_uci :=
             match pv with
             | Some (m :: _) => PyStr (Move_uci m)
             | _ => PyNone
             end in
           povscore <- match info_score info with
                       | Some s => Py.ret s
                       | None => Py.raise (KeyError "'score'")
                       end ;;
           let score := pov povscore side_to_move in
           if Score_is_mate score then
             Py.ret (result_dict "mate" (py_optional_int (Score_mate score)) best_move_uci true)
           else
             Py.ret (result_dict "cp" (py_optional_int (Score_score score)) best_move_uci true))
          (fun e =>
             logger_exception "ENGINE analyse failed" ;;;
             _hard_reset_engine (exc_name e) ;;;
             Py.ret (result_dict "cp" PyNone PyNone false))
  | _ => Py.raise (ValueError "fen must be a string")
  end.

(** ** Vocabulary of the specification *)

(** A positive integer time budget.  Python's [True] is the [int] 1, and is
    listed as such; [False] is the [int] 0. *)
Inductive positive_integer : PyVal -> Prop :=
| positive_int (n : Z) : 0 < n -> positive_integer (PyInt n)
| positive_True : positive_integer (PyBool true).

(** The request [input_data] passes validation and parsing: its position is
    the string [fen], which parses to [board], and its time budget, given or
    defaulted, is the positive integer [time_ms]. *)
Record accepted_request (input_data : gmap string PyVal)
    (fen : string) (time_ms : Z) (board : Board) : Prop := {
  request_fen : input_data !! "fen" = Some (PyStr fen);
  request_time_ms :
    (input_data !! "time_ms" = None /\ time_ms = 100) \/
    (exists v, input_data !! "time_ms" = Some v /\ positive_integer v /\ int_of v = time_ms);
  request_board : chess_Board fen = Return board;
}.

(** The time limit handed to the engine for a budget of [time_ms]. *)
Definition limit_of (time_ms : Z) : Limit := mkLimit (time_ms # 1000).

(** Reading an entry of a result dictionary. *)
Definition field (key : string) (r : PyVal) : option PyVal :=
  match r with
  | PyDict d => d !! key
  | _ => None
  end.

Definition eval_value (r : PyVal) : option PyVal :=
  match field "eval" r with
  | Some e => field "value" e
  | None => None
  end.

Definition eval_type (r : PyVal) : option PyVal :=
  match field "eval" r with
  | Some e => field "type" e
  | None => None
  end.

(** The fixed result shape [{eval: {type, value}, best_move_uci, ok}]. *)
Definition fixed_shape (r : PyVal) : Prop :=
  exists (d e : gmap string PyVal) (type value best : PyVal) (ok : bool),
    r = PyDict d /\
    dom d = ({["eval"; "best_move_uci"; "ok"]} : gset string) /\
    d !! "eval" = Some (PyDict e) /\
    dom e = ({["type"; "value"]} : gset string) /\
    e !! "type" = Some type /\
    e !! "value" = Some value /\
    d !! "best_move_uci" = Some best /\
    d !! "ok" = Some (PyBool ok) /\
    (type = PyStr "cp" \/ type = PyStr "mate") /\
    (value = PyNone \/ exists n, value = PyInt n) /\
    (best = PyNone \/ exists uci, best = PyStr uci).

(** The fixed failure result. *)
Definition FAILURE_RESULT : PyVal :=
  PyDict {[ "eval" := PyDict {[ "type" := PyStr "cp"; "value" := PyNone ]};
            "best_move_uci" := PyNone;
            "ok" := PyBool false ]}.

(** The principal move of an analysis, in move notation. *)
Definition principal_move (info : InfoDict) : PyVal :=
  match info_pv info with
  | Some (m :: _) => PyStr (Move_uci m)
  | Some [] | None => PyNone
  end.

Definition is_spawn (ev : Event) : bool :=
  match ev with
  | EvPopen _ => true
  | _ => false
  end.

Definition is_analyse (ev : Event) : bool :=
  match ev with
  | EvAnalyse _ _ _ => true
  | _ => false
  end.

Definition is_quit (ev : Event) : bool :=
  match ev with
  | EvQuit _ => true
  | _ => false
  end.

(** A reset shows in the trace as its log line. *)
Definition is_reset (ev : Event) : bool :=
  match ev with
  | EvLog ERROR _ => true
  | _ => false
  end.

Definition count (p : Event -> bool) (t : list Event) : nat :=
  length (List.filter p t).

(** [n] acquisitions in a row, with the handles they returned. *)
Fixpoint acquire_n (n : nat) : M (list Handle) :=
  match n with
  | O => Py.ret []
  | S n' =>
      engine <- _get_engine ;;
      rest <- acquire_n n' ;;
      Py.ret (engine :: rest)
  end.

(** A failure while acquiring the engine handle or during the analysis of
    [board] under [limit], started in state [st]: the exception and the
    state at the point of failure. *)
Inductive engine_failure (board : Board) (limit : Limit) (st : State) :
    Exception -> State -> Prop :=
| failure_in_acquire (e : Exception) (st1 : State) :
    _get_engine st = (Raise e, st1) ->
    engine_failure board limit st e st1
| failure_in_analyse (engine : Handle) (st1 : State) (e : Exception) (st2 : State) :
    _get_engine st = (Return engine, st1) ->
    engine_analyse engine board limit st1 = (Raise e, st2) ->
    engine_failure board limit st e st2
| failure_in_normalize (engine : Handle) (st1 : State) (info : InfoDict) (st2 : State) :
    _get_engine st = (Return engine, st1) ->
    engine_analyse engine board limit st1 = (Return info, st2) ->
    info_score info = None ->
    engine_failure board limit st (KeyError "'score'") st2.

(** What a spawn can do: it raises in [popen_uci] or in [configure] with
    nothing stored, or it returns the new handle after the warm-up. *)
Inductive spawn_outcome (st : State) : Outcome Handle -> State -> Prop :=
| spawn_popen_raises (e : Exception) (w : World) :
    spawn_outcome st (Raise e)
      (mkState (_engine st) w
         (trace st ++ [EvLog WARNING "ENGINE: spawning new Stockfish process";
                       EvPopen ENGINE_PATH]))
| spawn_configure_raises (engine : Handle) (e : Exception) (w : World) :
    spawn_outcome st (Raise e)
      (mkState (_engine st) w
         (trace st ++ [EvLog WARNING "ENGINE: spawning new Stockfish process";
                       EvPopen ENGINE_PATH;
                       EvConfigure engine]))
| spawn_returns (engine : Handle) (w : World) :
    spawn_outcome st (Return engine)
      (mkState (_engine st) w
         (trace st ++ [EvLog WARNING "ENGINE: spawning new Stockfish process";
                       EvPopen ENGINE_PATH;
                       EvConfigure engine;
                       EvSleep (3 # 10);
                       EvAnalyse engine chess_Board_start (mkLimit (1 # 100))])).

(** What an acquisition can do. *)
Inductive acquire_outcome (st : State) : Outcome Handle -> State -> Prop :=
| acquire_held (engine : Handle) :
    _engine st = Some engine ->
    acquire_outcome st (Return engine) st
| acquire_spawned (engine : Handle) (w : World) (evs : list Event) :
    _engine st = None ->
    count is_spawn evs = 1%nat ->
    count is_reset evs = 0%nat ->
    count is_quit evs = 0%nat ->
    acquire_outcome st (Return engine) (mkState (Some engine) w (trace st ++ evs))
| acquire_raises (e : Exception) (w : World) (evs : list Event) :
    _engine st = None ->
    count is_spawn evs = 1%nat ->
    count is_reset evs = 0%nat ->
    count is_quit evs = 0%nat ->
    acquire_outcome st (Raise e) (mkState None w (trace st ++ evs)).

(** The three results [evaluate_position] returns. *)
Inductive returned_result : PyVal -> Prop :=
| returned_mate (n : Z) (best : PyVal) :
    best = PyNone \/ (exists uci, best = PyStr uci) ->
    returned_result (result_dict "mate" (PyInt n) best true)
| returned_cp (c : Z) (best : PyVal) :
    best = PyNone \/ (exists uci, best = PyStr uci) ->
    returned_result (result_dict "cp" (PyInt c) best true)
| returned_failure :
    returned_result FAILURE_RESULT.

End Evaluator.

Arguments State {_ _}.
Arguments Event {_ _}.

(** ** A scripted engine

    A concrete transport for running the code: positions are recognised by
    their side-to-move field, and the external process follows a script, one
    entry per call. *)

Module Scripted.

Fixpoint side_to_move_field (fen : string) : option Color :=
  match fen with
  | String sp rest =>
      if Ascii.eqb sp " "%char then
        match rest with
        | String c _ =>
            if Ascii.eqb c "w"%char then Some true
            else if Ascii.eqb c "b"%char then Some false
            else None
        | EmptyString => None
        end
      else side_to_move_field rest
  | EmptyString => None
  end.

Definition parse (fen : string) : Outcome (string * Color) :=
  match fen with
  | "" => Raise (ValueError "empty fen")
  | _ =>
      match side_to_move_field fen with
      | Some c => Return (fen, c)
      | None => Raise (ValueError "expected 'w' or 'b' for turn part of fen")
      end
  end.

Definition rules : ChessRules := {|
  Board := string * Color;
  Move := string;
  chess_Board := parse;
  chess_Board_start := ("rnbqkbnr/pppppppp/8/8/8/8/PPPPPPPP/RNBQKBNR w KQkq - 0 1", true);
  Board_turn := snd;
  Move_uci := fun m => m;
|}.

(** One entry of the script: the call succeeds, succeeds with this analysis
    information, or raises. *)
Inductive Reply : Type :=
| Fine
| Analysis (info : @InfoDict rules)
| Crash (e : Exception).

Record Process : Type := mkProcess { spawned : nat; script : list Reply }.

Definition next (w : Process) : Reply * Process :=
  match script w with
  | [] => (Fine, w)
  | r :: rest => (r, mkProcess (spawned w) rest)
  end.

Definition default_info (board : @Board rules) : @InfoDict rules :=
  mkInfo rules (Some ["e7e5"]) (Some (mkPovScore (Cp 35) (@Board_turn rules board))).

Definition transport : @EngineTransport rules := {|
  World := Process;
  Handle := nat;
  popen_uci := fun _ w =>
    match next w with
    | (Crash e, w') => (Raise e, w')
    | (_, w') => (Return (spawned w'), mkProcess (S (spawned w')) (script w'))
    end;
  configure := fun _ _ w =>
    match next w with
    | (Crash e, w') => (Raise e, w')
    | (_, w') => (Return (), w')
    end;
  analyse := fun _ board _ w =>
    match next w with
    | (Crash e, w') => (Raise e, w')
    | (Analysis info, w') => (Return info, w')
    | (Fine, w') => (Return (default_info board), w')
    end;
  quit := fun _ w =>
    match next w with
    | (Crash e, w') => (Raise e, w')
    | (_, w') => (Return (), w')
    end;
|}.

Definition EngineTerminatedError : Exception :=
  mkException "EngineTerminatedError" "engine process died unexpectedly (exit code: 1)".

(** A state with no handle held, nothing called yet, and the given script. *)
Definition fresh (replies : list Reply) : @State rules transport :=
  @mkState rules transport None (mkProcess 0 replies) [].

(** A state holding handle [0], nothing called yet, and the given script. *)
Definition ready (replies : list Reply) : @State rules transport :=
  @mkState rules transport (Some 0%nat) (mkProcess 1 replies) [].

Definition BLACK_TO_MOVE : string :=
  "rnbqkbnr/pppppppp/8/8/4P3/8/PPPP1PPP/RNBQKBNR b KQkq - 0 1".

(** The request of the module's local debug run. *)
Definition test_input : gmap string PyVal :=
  {[ "fen" := PyStr BLACK_TO_MOVE; "time_ms" := PyInt 100 ]}.

(** The state right after the analysis of the debug request crashed, with
    handle [0] held. *)
Definition CRASHED : @State rules transport :=
  @mkState rules transport (Some 0%nat) (mkProcess 1 [])
    [@EvAnalyse rules transport 0%nat (BLACK_TO_MOVE, false) (limit_of 100)].

(** Black to move finds a mate in one. *)
Definition MATE_IN_ONE : @InfoDict rules :=
  mkInfo rules (Some ["d8h4"]) (Some (mkPovScore (Mate 1) false)).

(** Requests that do not pass validation or parsing, and one that leaves
    the time budget out. *)
Definition zero_budget_input : gmap string PyVal :=
  {[ "fen" := PyStr BLACK_TO_MOVE; "time_ms" := PyInt 0 ]}.

Definition empty_position_input : gmap string PyVal :=
  {[ "fen" := PyStr "" ]}.

Definition unparsable_input : gmap string PyVal :=
  {[ "fen" := PyStr "not-a-position"; "time_ms" := PyInt 100 ]}.

Definition no_budget_input : gmap string PyVal :=
  {[ "fen" := PyStr BLACK_TO_MOVE ]}.

(** The state after a spawn whose warm-up analysis was the third call. *)
Definition WARM : @State rules transport :=
  @mkState rules transport (Some 0%nat) (mkProcess 1 [])
    [EvLog WARNING "ENGINE: spawning new Stockfish process";
     EvPopen "stockfish-windows-x86-64-avx2.exe";
     @EvConfigure rules transport 0%nat;
     EvSleep (3 # 10);
     @EvAnalyse rules transport 0%nat
       (@chess_Board_start rules) (mkLimit (1 # 100))].

(** The executable is not where [ENGINE_PATH] says, and the process refuses
    an option. *)
Definition FileNotFoundError : Exception :=
  mkException "FileNotFoundError" "[Errno 2] No such file or directory".

Definition EngineError : Exception :=
  mkException "EngineError" "engine does not support option Skill Level".

(** An analysis that carries a line of play but no score. *)
Definition NO_SCORE : @InfoDict rules :=
  mkInfo rules (Some ["e7e5"]) None.

(** The debug request with a key the code does not know, with a boolean
    time budget, and a request that is wrong twice over. *)
Definition extra_key_input : gmap string PyVal :=
  {[ "fen" := PyStr BLACK_TO_MOVE; "time_ms" := PyInt 100; "depth" := PyInt 12 ]}.

Definition true_budget_input : gmap string PyVal :=
  {[ "fen" := PyStr BLACK_TO_MOVE; "time_ms" := PyBool true ]}.

Definition both_invalid_input : gmap string PyVal :=
  {[ "fen" := PyInt 5; "time_ms" := PyInt 0 ]}.

(** The state after [close_engine] on [ready []], and after the acquisition
    that follows. *)
Definition CLOSED : @State rules transport :=
  @mkState rules transport None (mkProcess 1 [])
    [EvLog ERROR "ENGINE HARD RESET: manual close";
     @EvQuit rules transport 0%nat].

Definition REOPENED : @State rules transport :=
  @mkState rules transport (Some 1%nat) (mkProcess 2 [])
    [EvLog ERROR "ENGINE HARD RESET: manual close";
     @EvQuit rules transport 0%nat;
     EvLog WARNING "ENGINE: spawning new Stockfish process";
     EvPopen "stockfish-windows-x86-64-avx2.exe";
     @EvConfigure rules transport 1%nat;
     EvSleep (3 # 10);
     @EvAnalyse rules transport 1%nat
       (@chess_Board_start rules) (mkLimit (1 # 100))].

(** The state after an acquisition whose [configure] raised. *)
Definition NOT_CONFIGURED : @State rules transport :=
  @mkState rules transport None (mkProcess 1 [])
    [EvLog WARNING "ENGINE: spawning new Stockfish process";
     EvPopen "stockfish-windows-x86-64-avx2.exe";
     @EvConfigure rules transport 0%nat].

(** The state after the debug request on a healthy engine from a cold
    start, and after the debug request whose analysis crashed. *)
Definition SERVED : @State rules transport :=
  @mkState rules transport (Some 0%nat) (mkProcess 1 [])
    [EvLog WARNING "ENGINE: spawning new Stockfish process";
     EvPopen "stockfish-windows-x86-64-avx2.exe";
     @EvConfigure rules transport 0%nat;
     EvSleep (3 # 10);
     @EvAnalyse rules transport 0%nat
       (@chess_Board_start rules) (mkLimit (1 # 100));
     @EvAnalyse rules transport 0%nat (BLACK_TO_MOVE, false) (limit_of 100)].

Definition AFTER_CRASH : @State rules transport :=
  @mkState rules transport None (mkProcess 1 [])
    [@EvAnalyse rules transport 0%nat (BLACK_TO_MOVE, false) (limit_of 100);
     EvLog EXCEPTION "ENGINE analyse failed";
     EvLog ERROR "ENGINE HARD RESET: EngineTerminatedError";
     @EvQuit rules transport 0%nat].

(** A time budget beyond the floats: [10 ** 400 / 1000] overflows. *)
Definition huge_budget_input : gmap string PyVal :=
  {[ "fen" := PyStr BLACK_TO_MOVE; "time_ms" := PyInt (10 ^ 400) ]}.

(** The state after the debug request on a process that started and then
    refused its options, and the state after the debug request that
    follows on a healthy process. *)
Definition LEAKED : @State rules transport :=
  @mkState rules transport None (mkProcess 1 [])
    [EvLog WARNING "ENGINE: spawning new Stockfish process";
     EvPopen "stockfish-windows-x86-64-avx2.exe";
     @EvConfigure rules transport 0%nat;
     EvLog EXCEPTION "ENGINE analyse failed";
     EvLog ERROR "ENGINE HARD RESET: EngineError"].

Definition TWO_STARTED : @State rules transport :=
  @mkState rules transport (Some 1%nat) (mkProcess 2 [])
    [EvLog WARNING "ENGINE: spawning new Stockfish process";
     EvPopen "stockfish-windows-x86-64-avx2.exe";
     @EvConfigure rules transport 0%nat;
     EvLog EXCEPTION "ENGINE analyse failed";
     EvLog ERROR "ENGINE HARD RESET: EngineError";
     EvLog WARNING "ENGINE: spawning new Stockfish process";
     EvPopen "stockfish-windows-x86-64-avx2.exe";
     @EvConfigure rules transport 1%nat;
     EvSleep (3 # 10);
     @EvAnalyse rules transport 1%nat
       (@chess_Board_start rules) (mkLimit (1 # 100));
     @EvAnalyse rules transport 1%nat (BLACK_TO_MOVE, false) (limit_of 100)].

(** The handles [quit] was called on, and the live handles of a state: the
    processes started so far, numbered from 0 in the order [popen_uci]
    started them, on which [quit] was never called. *)
Definition quit_handles (t : list (@Event rules transport)) : list nat :=
  List.flat_map
    (fun ev => match ev with
               | EvQuit engine => [engine]
               | _ => []
               end) t.

Definition live (st : @State rules transport) : list nat :=
  List.filter
    (fun engine => negb (List.existsb (Nat.eqb engine) (quit_handles (trace st))))
    (List.seq 0 (spawned (world st))).

End Scripted.

(** ** Floating point

    [time_ms / 1000] is a float in Python, and the division of two integers
    raises [OverflowError] when the quotient is beyond the floats.  A time
    budget fits when it is under the bound at which [int_truediv] by 1000
    raises: for a positive budget, exactly when line 123 gives a limit. *)
Definition fits_float (time_ms : Z) : Prop := time_ms < 1000 * (2 ^ 1024 - 2 ^ 970).

(** ** The calls of one request *)

Section Calls.

Context `{ET : EngineTransport}.
Variable package_dir : string.

(** The handle a call is addressed to, if it is addressed to one. *)
Definition handle_of (ev : Event) : option Handle :=
  match ev with
  | EvConfigure engine | EvAnalyse engine _ _ | EvQuit engine => Some engine
  | EvLog _ _ | EvSleep _ | EvPopen _ => None
  end.

(** The calls [evaluate_position] makes on a request for [board] under
    [limit] once the request is past validation and parsing, with the slot
    before and the slot after: straight to the analysis when a handle is
    held, through the spawn when none is, and in both cases with or without
    the except block, whose reset is logged under the name of the exception
    class. *)
Inductive request_calls (board : Board) (limit : Limit) :
    option Handle -> list Event -> option Handle -> Prop :=
| calls_held_ok (engine : Handle) :
    request_calls board limit (Some engine)
      [EvAnalyse engine board limit]
      (Some engine)
| calls_held_failed (engine : Handle) (name : string) :
    request_calls board limit (Some engine)
      [EvAnalyse engine board limit;
       EvLog EXCEPTION "ENGINE analyse failed";
       EvLog ERROR ("ENGINE HARD RESET: " ++ name)%string;
       EvQuit engine]
      None
| calls_not_started (name : string) :
    request_calls board limit None
      [EvLog WARNING "ENGINE: spawning new Stockfish process";
       EvPopen (ENGINE_PATH package_dir);
       EvLog EXCEPTION "ENGINE analyse failed";
       EvLog ERROR ("ENGINE HARD RESET: " ++ name)%string]
      None
| calls_not_configured (engine : Handle) (name : string) :
    request_calls board limit None
      [EvLog WARNING "ENGINE: spawning new Stockfish process";
       EvPopen (ENGINE_PATH package_dir);
       EvConfigure engine;
       EvLog EXCEPTION "ENGINE analyse failed";
       EvLog ERROR ("ENGINE HARD RESET: " ++ name)%string]
      None
| calls_spawned_ok (engine : Handle) :
    request_calls board limit None
      [EvLog WARNING "ENGINE: spawning new Stockfish process";
       EvPopen (ENGINE_PATH package_dir);
       EvConfigure engine;
       EvSleep (3 # 10);
       EvAnalyse engine chess_Board_start (mkLimit (1 # 100));
       EvAnalyse engine board limit]
      (Some engine)
| calls_spawned_failed (engine : Handle) (name : string) :
    request_calls board limit None
      [EvLog WARNING "ENGINE: spawning new Stockfish process";
       EvPopen (ENGINE_PATH package_dir);
       EvConfigure engine;
       EvSleep (3 # 10);
       EvAnalyse engine chess_Board_start (mkLimit (1 # 100));
       EvAnalyse engine board limit;
       EvLog EXCEPTION "ENGINE analyse failed";
       EvLog ERROR ("ENGINE HARD RESET: " ++ name)%string;
       EvQuit engine]
      None.

End Calls.

(** * Properties *)

(** ** The monad *)

Section MonadFacts.

Context {S A B : Type}.

Lemma bind_return (m : Py.M S A) (k : A -> Py.M S B) (st st' : S) (a : A) :
  m st = (Return a, st') -> Py.bind m k st = k a st'.
Proof. intros Hm. unfold Py.bind. now rewrite Hm. Qed.

Lemma bind_raise (m : Py.M S A) (k : A -> Py.M S B) (st st' : S) (e : Exception) :
  m st = (Raise e, st') -> Py.bind m k st = (Raise e, st').
Proof. intros Hm. unfold Py.bind. now rewrite Hm. Qed.

Lemma try_except_return (body : Py.M S A) (handler : Exception -> Py.M S A)
    (st st' : S) (a : A) :
  body st = (Return a, st') -> Py.try_except body handler st = (Return a, st').
Proof. intros Hm. unfold Py.try_except. now rewrite Hm. Qed.

Lemma try_except_raise (body : Py.M S A) (handler : Exception -> Py.M S A)
    (st st' : S) (e : Exception) :
  body st = (Raise e, st') -> Py.try_except body handler st = handler e st'.
Proof. intros Hm. unfold Py.try_except. now rewrite Hm. Qed.

End MonadFacts.

(** ** Validation of the time budget *)

Lemma positive_integer_accepted (v : PyVal) :
  positive_integer v ->
  negb (isinstance_int v) || (int_of v <=? 0)%Z = false.
Proof.
  intros [n Hn | ]; simpl; [| reflexivity].
  apply Z.leb_gt. exact Hn.
Qed.

Lemma not_positive_integer_rejected (v : PyVal) :
  ~ positive_integer v ->
  negb (isinstance_int v) || (int_of v <=? 0)%Z = true.
Proof.
  intros Hv. destruct v as [ | [|] | n | | | | ]; simpl; try reflexivity.
  - destruct Hv. constructor.
  - apply Z.leb_le. destruct (Z_lt_le_dec 0 n) as [Hn | Hn]; [| exact Hn].
    destruct Hv. now constructor.
Qed.

Lemma positive_integer_int_of (v : PyVal) : positive_integer v -> 0 < int_of v.
Proof. intros [n Hn | ]; simpl; lia. Qed.

(** ** The result shape *)

Lemma result_dict_shape (type : string) (value best : PyVal) (ok : bool) :
  type = "cp" \/ type = "mate" ->
  value = PyNone \/ (exists n, value = PyInt n) ->
  best = PyNone \/ (exists uci, best = PyStr uci) ->
  fixed_shape (result_dict type value best ok).
Proof.
  intros Htype Hvalue Hbest.
  exists {[ "eval" := PyDict {[ "type" := PyStr type; "value" := value ]};
            "best_move_uci" := best; "ok" := PyBool ok ]},
         {[ "type" := PyStr type; "value" := value ]},
         (PyStr type), value, best, ok.
  repeat split; try done.
  destruct Htype as [-> | ->]; auto.
Qed.

(** ** The lifecycle helpers *)

Section LifecycleFacts.

Context `{ET : EngineTransport}.
Variable package_dir : string.

Implicit Types (st : State) (engine : Handle) (e : Exception).

Lemma state_eta st : mkState (_engine st) (world st) (trace st) = st.
Proof. now destruct st. Qed.

Lemma count_app (p : Event -> bool) (t1 t2 : list Event) :
  count p (t1 ++ t2) = (count p t1 + count p t2)%nat.
Proof. unfold count. now rewrite List.filter_app, length_app. Qed.

(** The warm-up always returns, whatever its analysis did; it leaves the
    slot alone and only sleeps and analyses. *)
Lemma _warmup_engine_returns engine st :
  exists w,
    _warmup_engine engine st =
      (Return (),
       mkState (_engine st) w
         (trace st ++ [EvSleep (3 # 10);
                       EvAnalyse engine chess_Board_start (mkLimit (1 # 100))])) /\
    w = snd (analyse engine chess_Board_start (mkLimit (1 # 100)) (world st)).
Proof.
  unfold _warmup_engine, Py.bind, Py.try_except, time_sleep, emit,
    engine_analyse, call, Py.ret; simpl.
  destruct (analyse engine chess_Board_start (mkLimit (1 # 100)) (world st))
    as [[info | e] w]; simpl; exists w; rewrite <- app_assoc; simpl; auto.
Qed.

(** The hard reset always returns and leaves the slot empty; after its log
    line it only quits the handle that was held, if any. *)
Lemma _hard_reset_engine_returns (reason : string) st :
  exists w quits,
    _hard_reset_engine reason st =
      (Return (),
       mkState None w
         (trace st ++ EvLog ERROR ("ENGINE HARD RESET: " ++ reason) :: quits)) /\
    quits = match _engine st with
            | Some engine => [EvQuit engine]
            | None => []
            end /\
    (_engine st = None -> w = world st).
Proof.
  unfold _hard_reset_engine, Py.bind, Py.try_except, logger_error, emit,
    read_engine, write_engine, engine_quit, call, Py.ret; simpl.
  destruct (_engine st) as [engine | ]; simpl.
  - destruct (quit engine (world st)) as [[[] | e] w]; simpl;
      exists w, [EvQuit engine]; rewrite <- app_assoc; simpl; repeat split; discriminate.
  - exists (world st), []; auto.
Qed.

Lemma _spawn_engine_outcome st (r : Outcome Handle) (st' : State) :
  _spawn_engine package_dir st = (r, st') -> spawn_outcome package_dir st r st'.
Proof.
  unfold _spawn_engine, logger_warning, engine_popen_uci, engine_configure,
    Py.bind, emit, call; simpl.
  destruct (popen_uci (ENGINE_PATH package_dir) (world st)) as [[engine | e] w1]; simpl.
  2:{ intros [= <- <-]. rewrite <- app_assoc. apply spawn_popen_raises. }
  destruct (configure engine Config.STOCKFISH_CONFIG w1) as [[[] | e] w2]; simpl.
  2:{ intros [= <- <-]. rewrite <- !app_assoc. apply spawn_configure_raises. }
  match goal with |- context [_warmup_engine engine ?s] =>
    destruct (_warmup_engine_returns engine s) as (w3 & -> & _) end.
  simpl. intros [= <- <-]. rewrite <- !app_assoc. apply spawn_returns.
Qed.

End LifecycleFacts.

(** ** Acquiring the handle *)

Section AcquireFacts.

Context `{ET : EngineTransport}.
Variable package_dir : string.

Implicit Types (st : State) (engine : Handle) (e : Exception).

Lemma _get_engine_held st engine :
  _engine st = Some engine -> _get_engine package_dir st = (Return engine, st).
Proof.
  intros Hheld. unfold _get_engine, Py.bind, read_engine. now rewrite Hheld.
Qed.

Lemma _get_engine_absent st :
  _engine st = None ->
  _get_engine package_dir st =
    match _spawn_engine package_dir st with
    | (Return engine, st1) => (Return engine, mkState (Some engine) (world st1) (trace st1))
    | (Raise e, st1) => (Raise e, st1)
    end.
Proof.
  intros Habsent. unfold _get_engine, Py.bind at 1, read_engine. rewrite Habsent.
  unfold Py.bind, write_engine, Py.ret.
  now destruct (_spawn_engine package_dir st) as [[engine | e] st1].
Qed.

Lemma _get_engine_outcome st (r : Outcome Handle) (st' : State) :
  _get_engine package_dir st = (r, st') -> acquire_outcome st r st'.
Proof.
  destruct (_engine st) as [engine | ] eqn:Hslot.
  - rewrite (_get_engine_held _ _ Hslot). intros [= <- <-]. now constructor.
  - rewrite (_get_engine_absent _ Hslot).
    destruct (_spawn_engine package_dir st) as [r1 st1] eqn:Hspawn.
    apply _spawn_engine_outcome in Hspawn.
    destruct Hspawn; intros [= <- <-]; simpl; try rewrite Hslot;
      now constructor.
Qed.

Lemma acquire_n_held st engine (n : nat) :
  _engine st = Some engine ->
  acquire_n package_dir n st = (Return (replicate n engine), st).
Proof.
  intros Hheld. induction n as [| n IH]; simpl; [reflexivity |].
  rewrite (bind_return _ _ _ _ _ (_get_engine_held _ _ Hheld)).
  now rewrite (bind_return _ _ _ _ _ IH).
Qed.

End AcquireFacts.

(** ** The public operation *)

Section EvaluateFacts.

Context `{ET : EngineTransport}.
Variable package_dir : string.

Implicit Types (st : State) (engine : Handle) (e : Exception).
Implicit Types (input_data : gmap string PyVal) (board : Board).

Local Open Scope py_scope.

Lemma non_string_position_raises input_data st :
  isinstance_str (dict_get input_data "fen" PyNone) = false ->
  evaluate_position package_dir input_data st =
    (Raise (ValueError "fen must be a string"), st).
Proof.
  unfold evaluate_position.
  now destruct (dict_get input_data "fen" PyNone).
Qed.

Lemma invalid_time_ms_raises input_data st :
  ~ positive_integer (dict_get input_data "time_ms" (PyInt Config.DEFAULT_TIME_MS)) ->
  exists e, evaluate_position package_dir input_data st = (Raise e, st) /\
            exc_name e = "ValueError".
Proof.
  intros Htime. unfold evaluate_position.
  destruct (dict_get input_data "fen" PyNone);
    try (now eexists; split; [reflexivity |]).
  rewrite (not_positive_integer_rejected _ Htime).
  now eexists; split; [reflexivity |].
Qed.

(** Within the floats the division by 1000 gives the quotient; beyond them
    it raises. *)
Lemma int_truediv_fits (time_ms : Z) :
  0 < time_ms -> fits_float time_ms ->
  int_truediv time_ms 1000 = Return (time_ms # 1000).
Proof.
  unfold int_truediv, fits_float. intros Hpos Hfits.
  rewrite (Z.abs_eq time_ms) by now apply Z.lt_le_incl.
  destruct (Z.leb_spec (1000 * (2 ^ 1024 - 2 ^ 970)) time_ms) as [Hle | _];
    [| reflexivity].
  destruct (Z.lt_irrefl time_ms). now apply (Z.lt_le_trans _ _ _ Hfits).
Qed.

Lemma int_truediv_overflows (time_ms : Z) :
  0 < time_ms -> ~ fits_float time_ms ->
  int_truediv time_ms 1000 =
    Raise (OverflowError "integer division result too large for a float").
Proof.
  unfold int_truediv, fits_float. intros Hpos Hover.
  rewrite (Z.abs_eq time_ms) by now apply Z.lt_le_incl.
  destruct (Z.leb_spec (1000 * (2 ^ 1024 - 2 ^ 970)) time_ms) as [_ | Hlt];
    [reflexivity | now destruct Hover].
Qed.

Lemma fits_float_decide (time_ms : Z) : fits_float time_ms \/ ~ fits_float time_ms.
Proof.
  unfold fits_float.
  destruct (Z.ltb_spec time_ms (1000 * (2 ^ 1024 - 2 ^ 970))) as [Hlt | Hle];
    [now left | right].
  intros Hlt. destruct (Z.lt_irrefl time_ms). now apply (Z.lt_le_trans _ _ _ Hlt).
Qed.

(** Past validation, the call is the parse, the division that gives the
    time limit, and then the critical section. *)
Lemma evaluate_position_validated input_data (fen : string) (time_ms : PyVal) st :
  input_data !! "fen" = Some (PyStr fen) ->
  dict_get input_data "time_ms" (PyInt Config.DEFAULT_TIME_MS) = time_ms ->
  positive_integer time_ms ->
  evaluate_position package_dir input_data st =
    match chess_Board fen with
    | Raise e => (Raise e, st)
    | Return board =>
        match int_truediv (int_of time_ms) 1000 with
        | Raise e => (Raise e, st)
        | Return seconds =>
        Py.try_except
          (engine <- _get_engine package_dir ;;
           info <- engine_analyse engine board (mkLimit seconds) ;;
           povscore <- match info_score info with
                       | Some s => Py.ret s
                       | None => Py.raise (KeyError "'score'")
                       end ;;
           let score := pov povscore (Board_turn board) in
           if Score_is_mate score then
             Py.ret (result_dict "mate" (py_optional_int (Score_mate score))
                       (principal_move info) true)
           else
             Py.ret (result_dict "cp" (py_optional_int (Score_score score))
                       (principal_move info) true))
          (fun e =>
             logger_exception "ENGINE analyse failed" ;;;
             _hard_reset_engine (exc_name e) ;;;
             Py.ret (result_dict "cp" PyNone PyNone false))
          st
        end
    end.
Proof.
  intros Hfen Htime Hpos. unfold evaluate_position.
  unfold dict_get at 1. rewrite Hfen, Htime.
  rewrite (positive_integer_accepted _ Hpos).
  unfold Py.bind at 1, Py.lift.
  destruct (chess_Board fen) as [board | e]; [| reflexivity].
  unfold Py.bind at 1.
  destruct (int_truediv (int_of time_ms) 1000) as [seconds | e]; reflexivity.
Qed.

(** With a position that parses and a time budget within the floats, the
    call is the critical section under a limit of [time_ms / 1000]. *)
Lemma evaluate_position_critical input_data (fen : string) (time_ms : PyVal)
    board st :
  input_data !! "fen" = Some (PyStr fen) ->
  dict_get input_data "time_ms" (PyInt Config.DEFAULT_TIME_MS) = time_ms ->
  positive_integer time_ms ->
  chess_Board fen = Return board ->
  fits_float (int_of time_ms) ->
  evaluate_position package_dir input_data st =
        Py.try_except
          (engine <- _get_engine package_dir ;;
           info <- engine_analyse engine board (limit_of (int_of time_ms)) ;;
           povscore <- match info_score info with
                       | Some s => Py.ret s
                       | None => Py.raise (KeyError "'score'")
                       end ;;
           let score := pov povscore (Board_turn board) in
           if Score_is_mate score then
             Py.ret (result_dict "mate" (py_optional_int (Score_mate score))
                       (principal_move info) true)
           else
             Py.ret (result_dict "cp" (py_optional_int (Score_score score))
                       (principal_move info) true))
          (fun e =>
             logger_exception "ENGINE analyse failed" ;;;
             _hard_reset_engine (exc_name e) ;;;
             Py.ret (result_dict "cp" PyNone PyNone false))
          st.
Proof.
  intros Hfen Htime Hpos Hboard Hfits.
  rewrite (evaluate_position_validated _ fen time_ms st Hfen Htime Hpos), Hboard.
  now rewrite (int_truediv_fits _ (positive_integer_int_of _ Hpos) Hfits).
Qed.

(** With a position that parses and a time budget beyond the floats, the
    division raises and the critical section is never entered. *)
Lemma evaluate_position_overflows input_data (fen : string) (time_ms : PyVal)
    board st :
  input_data !! "fen" = Some (PyStr fen) ->
  dict_get input_data "time_ms" (PyInt Config.DEFAULT_TIME_MS) = time_ms ->
  positive_integer time_ms ->
  chess_Board fen = Return board ->
  ~ fits_float (int_of time_ms) ->
  evaluate_position package_dir input_data st =
    (Raise (OverflowError "integer division result too large for a float"), st).
Proof.
  intros Hfen Htime Hpos Hboard Hover.
  rewrite (evaluate_position_validated _ fen time_ms st Hfen Htime Hpos), Hboard.
  now rewrite (int_truediv_overflows _ (positive_integer_int_of _ Hpos) Hover).
Qed.

Lemma accepted_request_time input_data (fen : string) (time_ms : Z) board :
  accepted_request input_data fen time_ms board ->
  exists v, dict_get input_data "time_ms" (PyInt Config.DEFAULT_TIME_MS) = v /\
            positive_integer v /\ int_of v = time_ms.
Proof.
  intros [_ [[Hnone ->] | (v & Hsome & Hv & Hint)] _]; unfold dict_get.
  - rewrite Hnone. exists (PyInt 100). repeat split. now constructor.
  - rewrite Hsome. now exists v.
Qed.

End EvaluateFacts.

Section Contract.

Context `{ET : EngineTransport}.
Variable package_dir : string.

Implicit Types (st : State) (engine : Handle) (e : Exception).
Implicit Types (input_data : gmap string PyVal) (board : Board).

(** A successful acquisition and analysis whose information carries a score
    is normalised and returned, in the state the analysis left. *)
Lemma evaluate_position_success input_data (fen : string) (time_ms : Z) board
    st engine st1 (info : InfoDict) (povscore : PovScore) st2 :
  accepted_request input_data fen time_ms board ->
  fits_float time_ms ->
  _get_engine package_dir st = (Return engine, st1) ->
  engine_analyse engine board (limit_of time_ms) st1 = (Return info, st2) ->
  info_score info = Some povscore ->
  evaluate_position package_dir input_data st =
    (Return
       (let score := pov povscore (Board_turn board) in
        if Score_is_mate score then
          result_dict "mate" (py_optional_int (Score_mate score)) (principal_move info) true
        else
          result_dict "cp" (py_optional_int (Score_score score)) (principal_move info) true),
     st2).
Proof.
  intros Hacc Hfits Hget Hanalyse Hscore.
  destruct (accepted_request_time _ _ _ _ Hacc) as (v & Hv & Hpos & <-).
  rewrite (evaluate_position_critical _ _ fen v board st (request_fen _ _ _ _ Hacc)
             Hv Hpos (request_board _ _ _ _ Hacc) Hfits).
  apply try_except_return.
  rewrite (bind_return _ _ _ _ _ Hget).
  rewrite (bind_return _ _ _ _ _ Hanalyse).
  rewrite Hscore. unfold Py.bind, Py.ret; simpl.
  now destruct (Score_is_mate _).
Qed.

(** Any engine failure runs the handler in the state of the failure. *)
Lemma evaluate_position_failure input_data (fen : string) (time_ms : Z) board
    st e st_f :
  accepted_request input_data fen time_ms board ->
  fits_float time_ms ->
  engine_failure package_dir board (limit_of time_ms) st e st_f ->
  evaluate_position package_dir input_data st =
    (Return FAILURE_RESULT,
     snd (_hard_reset_engine (exc_name e)
            (snd (logger_exception "ENGINE analyse failed" st_f)))).
Proof.
  intros Hacc Hfits Hfail.
  destruct (accepted_request_time _ _ _ _ Hacc) as (v & Hv & Hpos & <-).
  rewrite (evaluate_position_critical _ _ fen v board st (request_fen _ _ _ _ Hacc)
             Hv Hpos (request_board _ _ _ _ Hacc) Hfits).
  assert (Hhandler : forall st0,
    Py.bind (logger_exception "ENGINE analyse failed")
      (fun _ => Py.bind (_hard_reset_engine (exc_name e))
         (fun _ => Py.ret (result_dict "cp" PyNone PyNone false))) st0 =
    (Return FAILURE_RESULT,
     snd (_hard_reset_engine (exc_name e)
            (snd (logger_exception "ENGINE analyse failed" st0))))).
  { intros st0. unfold Py.bind at 1. unfold logger_exception at 1, emit at 1.
    simpl. unfold Py.bind.
    match goal with |- context [_hard_reset_engine ?r ?s] =>
      destruct (_hard_reset_engine_returns r s) as (w & quits & -> & _) end.
    reflexivity. }
  destruct Hfail as [e st1 Hget | engine st1 e st2 Hget Hanalyse
                    | engine st1 info st2 Hget Hanalyse Hscore].
  - erewrite try_except_raise; [apply Hhandler |].
    now apply bind_raise.
  - erewrite try_except_raise; [apply Hhandler |].
    rewrite (bind_return _ _ _ _ _ Hget). now apply bind_raise.
  - erewrite try_except_raise; [apply Hhandler |].
    rewrite (bind_return _ _ _ _ _ Hget).
    rewrite (bind_return _ _ _ _ _ Hanalyse).
    rewrite Hscore. reflexivity.
Qed.

(** On an accepted request the critical section either succeeds with a
    score or fails as an engine failure: there is no third way out. *)
Lemma critical_section_cases (time_ms : Z) board st :
  (exists engine st1 info povscore st2,
     _get_engine package_dir st = (Return engine, st1) /\
     engine_analyse engine board (limit_of time_ms) st1 = (Return info, st2) /\
     info_score info = Some povscore) \/
  (exists e st_f, engine_failure package_dir board (limit_of time_ms) st e st_f).
Proof.
  destruct (_get_engine package_dir st) as [[engine | e] st1] eqn:Hget.
  2:{ right. exists e, st1. now apply failure_in_acquire. }
  destruct (engine_analyse engine board (limit_of time_ms) st1)
    as [[info | e] st2] eqn:Hanalyse.
  2:{ right. exists e, st2. eapply failure_in_analyse; eassumption. }
  destruct (info_score info) as [povscore | ] eqn:Hscore.
  - left. now exists engine, st1, info, povscore, st2.
  - right. exists (KeyError "'score'"), st2. eapply failure_in_normalize; eassumption.
Qed.

Lemma principal_move_shape (info : InfoDict) :
  principal_move info = PyNone \/ exists uci, principal_move info = PyStr uci.
Proof.
  unfold principal_move. destruct (info_pv info) as [[| m pv] | ]; eauto.
Qed.

Lemma normalized_result (score : Score) (best : PyVal) :
  best = PyNone \/ (exists uci, best = PyStr uci) ->
  returned_result
    (if Score_is_mate score then
       result_dict "mate" (py_optional_int (Score_mate score)) best true
     else
       result_dict "cp" (py_optional_int (Score_score score)) best true).
Proof.
  intros Hbest.
  destruct score as [c | n | ];
    cbn [Score_is_mate Score_mate Score_score py_optional_int].
  - now apply returned_cp.
  - now apply returned_mate.
  - now apply returned_mate.
Qed.

Lemma evaluate_position_returns input_data st (r : PyVal) (st' : State) :
  evaluate_position package_dir input_data st = (Return r, st') ->
  returned_result r.
Proof.
  destruct (input_data !! "fen") as [vfen | ] eqn:Hfen.
  2:{ rewrite non_string_position_raises; [discriminate |].
      unfold dict_get. now rewrite Hfen. }
  destruct (isinstance_str vfen) eqn:Hstr.
  2:{ rewrite non_string_position_raises; [discriminate |].
      unfold dict_get. now rewrite Hfen. }
  destruct vfen as [ | | | | fen | | ]; try discriminate.
  set (v := dict_get input_data "time_ms" (PyInt Config.DEFAULT_TIME_MS)).
  destruct (negb (isinstance_int v) || (int_of v <=? 0)%Z) eqn:Hcheck.
  { unfold evaluate_position, dict_get at 1. rewrite Hfen. fold v.
    rewrite Hcheck. discriminate. }
  assert (Hpos : positive_integer v).
  { destruct v as [ | [|] | n | | | | ]; simpl in Hcheck; try discriminate.
    - constructor.
    - constructor. now apply Z.leb_gt. }
  destruct (chess_Board fen) as [board | e] eqn:Hboard.
  2:{ rewrite (evaluate_position_validated _ _ fen v st Hfen eq_refl Hpos), Hboard.
      discriminate. }
  assert (Hacc : accepted_request input_data fen (int_of v) board).
  { split; [exact Hfen | | exact Hboard].
    destruct (input_data !! "time_ms") as [v' | ] eqn:Htime.
    - right. exists v'. subst v. unfold dict_get in *. rewrite Htime in *. auto.
    - left. subst v. unfold dict_get. now rewrite Htime. }
  destruct (fits_float_decide (int_of v)) as [Hfits | Hover].
  2:{ rewrite (evaluate_position_overflows _ _ fen v board st Hfen eq_refl Hpos
                 Hboard Hover).
      discriminate. }
  destruct (critical_section_cases (int_of v) board st)
    as [(engine & st1 & info & povscore & st2 & Hget & Hanalyse & Hscore)
       | (e & st_f & Hfail)].
  - rewrite (evaluate_position_success _ _ _ _ _ _ _ _ _ _ Hacc Hfits Hget Hanalyse Hscore).
    intros [= <- _]. apply normalized_result, principal_move_shape.
  - rewrite (evaluate_position_failure _ _ _ _ _ _ _ Hacc Hfits Hfail).
    intros [= <- _]. apply returned_failure.
Qed.

Lemma returned_result_shape (r : PyVal) : returned_result r -> fixed_shape r.
Proof.
  intros [n best Hbest | c best Hbest | ].
  - apply result_dict_shape; eauto.
  - apply result_dict_shape; eauto.
  - apply (result_dict_shape "cp" PyNone PyNone false); eauto.
Qed.

Lemma result_dict_fields (type : string) (value best : PyVal) (ok : bool) :
  field "ok" (result_dict type value best ok) = Some (PyBool ok) /\
  field "best_move_uci" (result_dict type value best ok) = Some best /\
  eval_type (result_dict type value best ok) = Some (PyStr type) /\
  eval_value (result_dict type value best ok) = Some value.
Proof. repeat split; reflexivity. Qed.

Lemma count_snoc_false (p : Event -> bool) (t : list Event) (evs : list Event) :
  count p evs = 0%nat -> count p (t ++ evs) = count p t.
Proof. intros Hevs. rewrite count_app, Hevs. lia. Qed.

(** An accepted request whose time budget is within the floats returns, and
    returns one of the three results. *)
Lemma accepted_request_returns input_data (fen : string) (time_ms : Z) board st :
  accepted_request input_data fen time_ms board ->
  fits_float time_ms ->
  exists (r : PyVal) (st' : State),
    evaluate_position package_dir input_data st = (Return r, st') /\
    returned_result r.
Proof.
  intros Hacc Hfits.
  destruct (critical_section_cases time_ms board st)
    as [(engine & st1 & info & povscore & st2 & Hget & Hanalyse & Hscore)
       | (e & st_f & Hfail)].
  - eexists _, st2. split.
    + exact (evaluate_position_success _ _ _ _ _ _ _ _ _ _ Hacc Hfits Hget Hanalyse Hscore).
    + apply normalized_result, principal_move_shape.
  - eexists _, _. split.
    + exact (evaluate_position_failure _ _ _ _ _ _ _ Hacc Hfits Hfail).
    + apply returned_failure.
Qed.

(** C1 (as amended).  For every input dictionary that passes validation and
    parsing, with a time budget within the floats, [evaluate_position]
    never raises: it returns, in every state, and what it returns has the
    fixed shape [{eval: {type, value}, best_move_uci, ok}].  An input that
    fails validation (a position that is missing or not a string, a time
    budget that is not a positive integer) makes it raise a [ValueError]
    instead, with the state left as it was. *)
Theorem accepted_request_returns_fixed_shape input_data st :
  (forall (fen : string) (time_ms : Z) board,
     accepted_request input_data fen time_ms board ->
     fits_float time_ms ->
     exists (r : PyVal) (st' : State),
       evaluate_position package_dir input_data st = (Return r, st') /\
       fixed_shape r) /\
  ((forall s : string, input_data !! "fen" <> Some (PyStr s)) \/
   ~ positive_integer (dict_get input_data "time_ms" (PyInt Config.DEFAULT_TIME_MS)) ->
   exists e,
     evaluate_position package_dir input_data st = (Raise e, st) /\
     exc_name e = "ValueError").
Proof.
  split.
  - intros fen time_ms board Hacc Hfits.
    destruct (accepted_request_returns _ _ _ _ st Hacc Hfits) as (r & st' & Hret & Hr).
    exists r, st'. split; [exact Hret |]. now apply returned_result_shape.
  - intros [Hnot | Hneg]; [| now apply invalid_time_ms_raises].
    exists (ValueError "fen must be a string"). split; [| reflexivity].
    apply non_string_position_raises. unfold dict_get.
    destruct (input_data !! "fen") as [[ | | | | s | | ] | ]; try reflexivity.
    now destruct (Hnot s).
Qed.

(** C2.  On a request that passes validation and parsing (its time budget
    within the floats, as that of every request that gets to the engine
    is), any failure while acquiring the handle or during the analysis
    makes [evaluate_position] run the hard reset, which leaves the slot
    empty, and return exactly
    [{eval: {type: "cp", value: None}, best_move_uci: None, ok: False}];
    after the failure it only logs and quits the handle it held: it neither
    analyses nor spawns again. *)
Theorem engine_failure_resets_without_retry input_data (fen : string)
    (time_ms : Z) board st e st_f :
  accepted_request input_data fen time_ms board ->
  fits_float time_ms ->
  engine_failure package_dir board (limit_of time_ms) st e st_f ->
  exists st' : State,
    evaluate_position package_dir input_data st = (Return FAILURE_RESULT, st') /\
    _engine st' = None /\
    trace st' =
      (trace st_f ++
       [EvLog EXCEPTION "ENGINE analyse failed";
        EvLog ERROR ("ENGINE HARD RESET: " ++ exc_name e)%string] ++
       match _engine st_f with
       | Some engine => [EvQuit engine]
       | None => []
       end)%list /\
    count is_analyse (trace st') = count is_analyse (trace st_f) /\
    count is_spawn (trace st') = count is_spawn (trace st_f).
Proof.
  intros Hacc Hfits Hfail.
  rewrite (evaluate_position_failure _ _ _ _ _ _ _ Hacc Hfits Hfail).
  eexists. split; [reflexivity |].
  match goal with |- context [_hard_reset_engine ?r ?s] =>
    destruct (_hard_reset_engine_returns r s) as (w & quits & -> & -> & _) end.
  cbn [snd _engine trace logger_exception emit].
  rewrite <- app_assoc. cbn [app].
  repeat split.
  - apply count_snoc_false. now destruct (_engine st_f).
  - apply count_snoc_false. now destruct (_engine st_f).
Qed.

(** X23.  A spawn occurs only when the slot is empty, and then at most once
    per acquisition: while a handle is held, [_get_engine] returns that
    very handle and changes nothing, however many times it is called; a
    handle it returns is the one the slot holds afterwards. *)
Theorem get_engine_single_handle st (r : Outcome Handle) (st' : State) :
  _get_engine package_dir st = (r, st') ->
  (count is_spawn (trace st') <> count is_spawn (trace st) -> _engine st = None) /\
  (count is_spawn (trace st') <= count is_spawn (trace st) + 1)%nat /\
  (forall engine, _engine st = Some engine ->
     r = Return engine /\ st' = st /\
     forall n : nat,
       acquire_n package_dir n st = (Return (replicate n engine), st)) /\
  (forall engine, r = Return engine -> _engine st' = Some engine).
Proof.
  intros Hget. pose proof (_get_engine_outcome _ _ _ _ Hget) as Hout.
  split; [| split; [| split]].
  - destruct Hout; auto. intros Hne. now destruct Hne.
  - destruct Hout; cbn [trace]; rewrite ?count_app; lia.
  - intros engine Hheld.
    rewrite (_get_engine_held _ _ _ Hheld) in Hget.
    injection Hget as <- <-. repeat split.
    intros n. now apply acquire_n_held.
  - intros engine ->. inversion Hout; subst; auto.
Qed.

(** C4.  A request whose time budget is not a positive integer (0, -5, or
    anything that is not an [int]) makes [evaluate_position] raise a
    [ValueError] at once: the state is exactly what it was, so the slot is
    unchanged and nothing was spawned or called. *)
Theorem invalid_time_budget_rejected input_data (v : PyVal) st :
  input_data !! "time_ms" = Some v ->
  ~ positive_integer v ->
  exists e,
    evaluate_position package_dir input_data st = (Raise e, st) /\
    exc_name e = "ValueError".
Proof.
  intros Hv Hneg. apply invalid_time_ms_raises.
  unfold dict_get. now rewrite Hv.
Qed.

(** C5.  A request whose position is missing or not a string, and, given
    that ChessRules rejects the empty position with a [ValueError], a
    request whose position is the empty string, both end the same way:
    [evaluate_position] raises a [ValueError] and the state is exactly what
    it was, so nothing was spawned. *)
Theorem non_string_or_empty_position_rejected input_data st (e0 : Exception) :
  chess_Board "" = Raise e0 ->
  exc_name e0 = "ValueError" ->
  input_data !! "fen" = None \/
  (exists v, input_data !! "fen" = Some v /\ forall s, v <> PyStr s) \/
  input_data !! "fen" = Some (PyStr "") ->
  exists e,
    evaluate_position package_dir input_data st = (Raise e, st) /\
    exc_name e = "ValueError".
Proof.
  intros Hempty Hname [Hnone | [(v & Hv & Hnot) | Hfen]].
  - exists (ValueError "fen must be a string"). split; [| reflexivity].
    apply non_string_position_raises. unfold dict_get. now rewrite Hnone.
  - exists (ValueError "fen must be a string"). split; [| reflexivity].
    apply non_string_position_raises. unfold dict_get. rewrite Hv.
    destruct v; try reflexivity. now destruct (Hnot s).
  - set (t := dict_get input_data "time_ms" (PyInt Config.DEFAULT_TIME_MS)).
    destruct (negb (isinstance_int t) || (int_of t <=? 0)%Z) eqn:Hcheck.
    + apply invalid_time_ms_raises. fold t. intros Hpos.
      rewrite (positive_integer_accepted _ Hpos) in Hcheck. discriminate.
    + exists e0. split; [| exact Hname].
      assert (Hpos : positive_integer t).
      { destruct t as [ | [|] | n | | | | ]; simpl in Hcheck; try discriminate.
        - constructor.
        - constructor. now apply Z.leb_gt. }
      rewrite (evaluate_position_validated _ _ "" t st Hfen eq_refl Hpos).
      now rewrite Hempty.
Qed.

(** C6.  A request whose position string does not parse makes
    [evaluate_position] raise with the state exactly as it was: no spawn, no
    reset, the slot untouched.  The exception is the parser's own whenever
    the time budget is valid (the budget is checked first). *)
Theorem unparsable_position_raises_before_engine input_data (fen : string) e st :
  input_data !! "fen" = Some (PyStr fen) ->
  chess_Board fen = Raise e ->
  exists e',
    evaluate_position package_dir input_data st = (Raise e', st) /\
    (input_data !! "time_ms" = None \/
     (exists v, input_data !! "time_ms" = Some v /\ positive_integer v) ->
     e' = e).
Proof.
  intros Hfen Hparse.
  set (t := dict_get input_data "time_ms" (PyInt Config.DEFAULT_TIME_MS)).
  destruct (negb (isinstance_int t) || (int_of t <=? 0)%Z) eqn:Hcheck.
  - assert (Hneg : ~ positive_integer t).
    { intros Hpos. rewrite (positive_integer_accepted _ Hpos) in Hcheck. discriminate. }
    destruct (invalid_time_ms_raises package_dir input_data st Hneg) as (e' & Hraise & _).
    exists e'. split; [exact Hraise |].
    intros [Hnone | (v & Hv & Hpos)]; destruct Hneg; subst t; unfold dict_get.
    + rewrite Hnone. now constructor.
    + now rewrite Hv.
  - exists e. split; [| reflexivity].
    assert (Hpos : positive_integer t).
    { destruct t as [ | [|] | n | | | | ]; simpl in Hcheck; try discriminate.
      - constructor.
      - constructor. now apply Z.leb_gt. }
    rewrite (evaluate_position_validated _ _ fen t st Hfen eq_refl Hpos).
    now rewrite Hparse.
Qed.

(** C7.  When the process starts and takes its options but the warm-up
    analysis fails, the failure is swallowed: the spawn completes,
    [_get_engine] stores and returns the new handle, nothing is reset or
    quit, and a following [evaluate_position] (its time budget within the
    floats, as that of every request that gets to the engine is) whose
    analysis succeeds returns [ok: True] on that same handle without
    spawning again. *)
Theorem warmup_failure_is_swallowed st engine (w1 w2 w3 : World) e :
  _engine st = None ->
  popen_uci (ENGINE_PATH package_dir) (world st) = (Return engine, w1) ->
  configure engine Config.STOCKFISH_CONFIG w1 = (Return (), w2) ->
  analyse engine chess_Board_start (mkLimit (1 # 100)) w2 = (Raise e, w3) ->
  let warm :=
    (trace st ++
     [EvLog WARNING "ENGINE: spawning new Stockfish process";
      EvPopen (ENGINE_PATH package_dir);
      EvConfigure engine;
      EvSleep (3 # 10);
      EvAnalyse engine chess_Board_start (mkLimit (1 # 100))])%list in
  let st' := mkState (Some engine) w3 warm in
  _spawn_engine package_dir st = (Return engine, mkState None w3 warm) /\
  _get_engine package_dir st = (Return engine, st') /\
  count is_reset (trace st') = count is_reset (trace st) /\
  count is_quit (trace st') = count is_quit (trace st) /\
  forall input_data (fen : string) (time_ms : Z) board
         (info : InfoDict) (povscore : PovScore) (w4 : World),
    accepted_request input_data fen time_ms board ->
    fits_float time_ms ->
    analyse engine board (limit_of time_ms) w3 = (Return info, w4) ->
    info_score info = Some povscore ->
    exists r : PyVal,
      evaluate_position package_dir input_data st' =
        (Return r,
         mkState (Some engine) w4
           (warm ++ [EvAnalyse engine board (limit_of time_ms)])%list) /\
      field "ok" r = Some (PyBool true).
Proof.
  intros Habsent Hpopen Hconfigure Hwarm warm st'.
  assert (Hspawn : _spawn_engine package_dir st = (Return engine, mkState None w3 warm)).
  { unfold _spawn_engine, _warmup_engine, logger_warning, engine_popen_uci,
      engine_configure, engine_analyse, time_sleep, Py.bind, Py.try_except,
      emit, call, Py.ret.
    cbn [world trace _engine]. rewrite Hpopen. cbn [world trace _engine].
    rewrite Hconfigure. cbn [world trace _engine]. rewrite Hwarm.
    cbn [world trace _engine]. rewrite Habsent.
    subst warm. now rewrite <- !app_assoc. }
  split; [exact Hspawn |].
  assert (Hget : _get_engine package_dir st = (Return engine, st')).
  { rewrite (_get_engine_absent _ _ Habsent), Hspawn. reflexivity. }
  split; [exact Hget |].
  split; [subst st' warm; cbn [trace]; now apply count_snoc_false |].
  split; [subst st' warm; cbn [trace]; now apply count_snoc_false |].
  intros input_data fen time_ms board info povscore w4 Hacc Hfits Hanalyse Hscore.
  eexists. split.
  - eapply (evaluate_position_success _ _ _ _ st' engine st' info povscore);
      [exact Hacc | exact Hfits | now apply _get_engine_held | | exact Hscore].
    unfold engine_analyse, call. subst st'. cbn [world trace _engine].
    now rewrite Hanalyse.
  - cbv zeta. destruct (Score_is_mate _); apply result_dict_fields.
Qed.

(** C8 (as amended).  When acquisition and analysis succeed (on a request
    whose time budget is within the floats, as that of every request that
    gets to the engine is) and the analysis carries a score, the result
    has [ok: True]; its best move is the principal move of the analysis, or
    [None] when there is none; and, for the score taken from the side to
    move, it is [{type: "mate", value: n}] for a forced mate in [n] and
    [{type: "cp", value: c}] for [c] centipawns. *)
Theorem successful_analysis_is_normalized input_data (fen : string)
    (time_ms : Z) board st engine st1 (info : InfoDict) (povscore : PovScore) st2 :
  accepted_request input_data fen time_ms board ->
  fits_float time_ms ->
  _get_engine package_dir st = (Return engine, st1) ->
  engine_analyse engine board (limit_of time_ms) st1 = (Return info, st2) ->
  info_score info = Some povscore ->
  exists r : PyVal,
    evaluate_position package_dir input_data st = (Return r, st2) /\
    field "ok" r = Some (PyBool true) /\
    field "best_move_uci" r = Some (principal_move info) /\
    match pov povscore (Board_turn board) with
    | Cp c => eval_type r = Some (PyStr "cp") /\ eval_value r = Some (PyInt c)
    | Mate n => eval_type r = Some (PyStr "mate") /\ eval_value r = Some (PyInt n)
    | MateGiven => eval_type r = Some (PyStr "mate") /\ eval_value r = Some (PyInt 0)
    end.
Proof.
  intros Hacc Hfits Hget Hanalyse Hscore.
  eexists. split.
  - exact (evaluate_position_success _ _ _ _ _ _ _ _ _ _ Hacc Hfits Hget Hanalyse Hscore).
  - cbv zeta.
    destruct (pov povscore (Board_turn board)) as [c | n | ];
      cbn [Score_is_mate Score_mate Score_score py_optional_int];
      repeat split; apply result_dict_fields.
Qed.

(** C9.  A request without a [time_ms] key behaves exactly as the same
    request with [time_ms] set to [DEFAULT_TIME_MS], which is 100; it does
    not fail the time validation: with a string position the only exception
    it can raise is the parser's, and with a position that parses it
    returns. *)
Theorem missing_time_ms_defaults input_data st :
  input_data !! "time_ms" = None ->
  Config.DEFAULT_TIME_MS = 100 /\
  evaluate_position package_dir input_data st =
    evaluate_position package_dir (<["time_ms" := PyInt 100]> input_data) st /\
  forall fen : string,
    input_data !! "fen" = Some (PyStr fen) ->
    (forall e (st' : State),
       evaluate_position package_dir input_data st = (Raise e, st') ->
       chess_Board fen = Raise e) /\
    (forall board, chess_Board fen = Return board ->
       accepted_request input_data fen 100 board /\
       exists (r : PyVal) (st' : State),
         evaluate_position package_dir input_data st = (Return r, st')).
Proof.
  intros Hnone. split; [reflexivity |]. split.
  - unfold evaluate_position, dict_get.
    rewrite Hnone, lookup_insert_eq, lookup_insert_ne by discriminate.
    reflexivity.
  - intros fen Hfen.
    assert (Hacc : forall board, chess_Board fen = Return board ->
                     accepted_request input_data fen 100 board).
    { intros board Hboard. split; auto. }
    assert (Hfits : fits_float 100) by reflexivity.
    split.
    + intros e st' Hraise.
      destruct (chess_Board fen) as [board | e1] eqn:Hboard.
      * destruct (accepted_request_returns _ _ _ _ st (Hacc board eq_refl) Hfits)
          as (r & st'' & Hret & _).
        rewrite Hret in Hraise. discriminate.
      * assert (Hpos : positive_integer (PyInt 100)) by now constructor.
        rewrite (evaluate_position_validated _ _ fen (PyInt 100) st Hfen) in Hraise;
          [| unfold dict_get; now rewrite Hnone | exact Hpos].
        rewrite Hboard in Hraise. now injection Hraise as <- _.
    + intros board Hboard. split; [now apply Hacc |].
      destruct (accepted_request_returns _ _ _ _ st (Hacc board Hboard) Hfits)
        as (r & st' & Hret & _).
      now exists r, st'.
Qed.

(** C10.  Whenever [evaluate_position] returns a result with [ok: True], the
    eval value is an integer, in the mate branch as in the centipawn branch;
    an eval value of [None] only comes with [ok: False]. *)
Theorem ok_result_has_eval_value input_data st (r : PyVal) (st' : State) :
  evaluate_position package_dir input_data st = (Return r, st') ->
  (field "ok" r = Some (PyBool true) -> exists n : Z, eval_value r = Some (PyInt n)) /\
  (eval_value r = Some PyNone -> field "ok" r = Some (PyBool false)).
Proof.
  intros Hret. apply evaluate_position_returns in Hret.
  destruct Hret as [n best _ | c best _ | ].
  - split; [intros _; exists n | intros Hnone]; [apply result_dict_fields |].
    destruct (result_dict_fields "mate" (PyInt n) best true) as (_ & _ & _ & Hvalue).
    rewrite Hvalue in Hnone. discriminate.
  - split; [intros _; exists c | intros Hnone]; [apply result_dict_fields |].
    destruct (result_dict_fields "cp" (PyInt c) best true) as (_ & _ & _ & Hvalue).
    rewrite Hvalue in Hnone. discriminate.
  - split; [intros Hok | intros _].
    + destruct (result_dict_fields "cp" PyNone PyNone false) as (Hfield & _).
      change (result_dict "cp" PyNone PyNone false) with FAILURE_RESULT in Hfield.
      rewrite Hfield in Hok. discriminate.
    + apply (result_dict_fields "cp" PyNone PyNone false).
Qed.

(** [True] is an [int] in Python: as a time budget it passes validation and
    stands for one millisecond. *)
Lemma time_ms_True_is_one_millisecond input_data (fen : string) board :
  input_data !! "fen" = Some (PyStr fen) ->
  input_data !! "time_ms" = Some (PyBool true) ->
  chess_Board fen = Return board ->
  accepted_request input_data fen 1 board.
Proof.
  intros Hfen Htime Hboard. split; auto.
  right. exists (PyBool true). repeat split; auto. constructor.
Qed.

End Contract.

(** ** The lifecycle on its own *)

Section Lifecycle.

Context `{ET : EngineTransport}.
Variable package_dir : string.

Implicit Types (st : State) (engine : Handle) (e : Exception).

Lemma engine_analyse_state engine (board : Board) (limit : Limit) st :
  engine_analyse engine board limit st =
    (fst (analyse engine board limit (world st)),
     mkState (_engine st) (snd (analyse engine board limit (world st)))
       (trace st ++ [EvAnalyse engine board limit])%list).
Proof.
  unfold engine_analyse, call.
  now destruct (analyse engine board limit (world st)).
Qed.

(** The hard reset as one equation: the log line, the quit of the held
    handle with whatever it raises dropped, the slot emptied. *)
Lemma _hard_reset_engine_state (reason : string) st :
  _hard_reset_engine reason st =
    (Return (),
     mkState None
       match _engine st with
       | Some engine => snd (quit engine (world st))
       | None => world st
       end
       (trace st ++
        EvLog ERROR ("ENGINE HARD RESET: " ++ reason)%string ::
        match _engine st with
        | Some engine => [EvQuit engine]
        | None => []
        end)%list).
Proof.
  unfold _hard_reset_engine, Py.bind, Py.try_except, logger_error, emit,
    read_engine, write_engine, engine_quit, call, Py.ret; simpl.
  destruct (_engine st) as [engine | ]; simpl.
  - destruct (quit engine (world st)) as [[[] | e] w]; simpl;
      now rewrite <- app_assoc.
  - reflexivity.
Qed.

(** The spawn as one equation: it stops at the first of [popen_uci] and
    [configure] that raises, and otherwise returns whatever the warm-up
    analysis did. *)
Lemma _spawn_engine_equation st :
  _spawn_engine package_dir st =
    match popen_uci (ENGINE_PATH package_dir) (world st) with
    | (Raise e, w1) =>
        (Raise e,
         mkState (_engine st) w1
           (trace st ++ [EvLog WARNING "ENGINE: spawning new Stockfish process";
                         EvPopen (ENGINE_PATH package_dir)])%list)
    | (Return engine, w1) =>
        match configure engine Config.STOCKFISH_CONFIG w1 with
        | (Raise e, w2) =>
            (Raise e,
             mkState (_engine st) w2
               (trace st ++ [EvLog WARNING "ENGINE: spawning new Stockfish process";
                             EvPopen (ENGINE_PATH package_dir);
                             EvConfigure engine])%list)
        | (Return _, w2) =>
            (Return engine,
             mkState (_engine st)
               (snd (analyse engine chess_Board_start (mkLimit (1 # 100)) w2))
               (trace st ++ [EvLog WARNING "ENGINE: spawning new Stockfish process";
                             EvPopen (ENGINE_PATH package_dir);
                             EvConfigure engine;
                             EvSleep (3 # 10);
                             EvAnalyse engine chess_Board_start (mkLimit (1 # 100))])%list)
        end
    end.
Proof.
  unfold _spawn_engine, logger_warning, engine_popen_uci, engine_configure,
    Py.bind, emit, call; simpl.
  destruct (popen_uci (ENGINE_PATH package_dir) (world st)) as [[engine | e] w1]; simpl.
  2:{ now rewrite <- app_assoc. }
  destruct (configure engine Config.STOCKFISH_CONFIG w1) as [[[] | e] w2]; simpl.
  2:{ now rewrite <- !app_assoc. }
  match goal with |- context [_warmup_engine engine ?s] =>
    destruct (_warmup_engine_returns engine s) as (w3 & -> & ->) end.
  simpl. now rewrite <- !app_assoc.
Qed.

(** An acquisition with the slot empty: the spawn, and the handle stored
    only when the spawn returned. *)
Lemma _get_engine_equation st :
  _engine st = None ->
  _get_engine package_dir st =
    match popen_uci (ENGINE_PATH package_dir) (world st) with
    | (Raise e, w1) =>
        (Raise e,
         mkState None w1
           (trace st ++ [EvLog WARNING "ENGINE: spawning new Stockfish process";
                         EvPopen (ENGINE_PATH package_dir)])%list)
    | (Return engine, w1) =>
        match configure engine Config.STOCKFISH_CONFIG w1 with
        | (Raise e, w2) =>
            (Raise e,
             mkState None w2
               (trace st ++ [EvLog WARNING "ENGINE: spawning new Stockfish process";
                             EvPopen (ENGINE_PATH package_dir);
                             EvConfigure engine])%list)
        | (Return _, w2) =>
            (Return engine,
             mkState (Some engine)
               (snd (analyse engine chess_Board_start (mkLimit (1 # 100)) w2))
               (trace st ++ [EvLog WARNING "ENGINE: spawning new Stockfish process";
                             EvPopen (ENGINE_PATH package_dir);
                             EvConfigure engine;
                             EvSleep (3 # 10);
                             EvAnalyse engine chess_Board_start (mkLimit (1 # 100))])%list)
        end
    end.
Proof.
  intros Habsent. rewrite (_get_engine_absent _ _ Habsent), _spawn_engine_equation.
  destruct (popen_uci (ENGINE_PATH package_dir) (world st)) as [[engine | e] w1].
  2:{ now rewrite Habsent. }
  destruct (configure engine Config.STOCKFISH_CONFIG w1) as [[[] | e] w2].
  - reflexivity.
  - now rewrite Habsent.
Qed.

Lemma _get_engine_stores st engine st1 :
  _get_engine package_dir st = (Return engine, st1) -> _engine st1 = Some engine.
Proof.
  intros Hget. apply _get_engine_outcome in Hget.
  inversion Hget; subst; auto.
Qed.

Lemma _get_engine_raises_empty st e st1 :
  _get_engine package_dir st = (Raise e, st1) -> _engine st = None /\ _engine st1 = None.
Proof.
  intros Hget. apply _get_engine_outcome in Hget.
  inversion Hget; subst; auto.
Qed.

(** What one acquisition adds to the trace. *)
Lemma _get_engine_calls st (r : Outcome Handle) (st1 : State) :
  _get_engine package_dir st = (r, st1) ->
  exists evs : list Event,
    trace st1 = (trace st ++ evs)%list /\
    (count is_spawn evs <= 1)%nat /\
    (count is_analyse evs <= 1)%nat /\
    count is_quit evs = 0%nat /\
    count is_reset evs = 0%nat /\
    (_engine st = None -> count is_spawn evs = 1%nat) /\
    (forall engine, _engine st = Some engine -> evs = []).
Proof.
  destruct (_engine st) as [held | ] eqn:Hslot.
  - rewrite (_get_engine_held _ _ _ Hslot). intros [= <- <-].
    exists []. rewrite app_nil_r. repeat split; auto; discriminate.
  - rewrite (_get_engine_equation _ Hslot).
    destruct (popen_uci (ENGINE_PATH package_dir) (world st)) as [[engine | e] w1].
    2:{ intros [= <- <-]. eexists. split; [reflexivity |].
        cbn. repeat split; auto; discriminate. }
    destruct (configure engine Config.STOCKFISH_CONFIG w1) as [[[] | e] w2];
      intros [= <- <-]; (eexists; split; [reflexivity |]);
      cbn; repeat split; auto; discriminate.
Qed.

(** X1.  [_warmup_engine] never raises, whatever its analysis does: it
    sleeps 0.3 s, analyses the starting position once with a limit of
    0.01 s, keeps what that call did to the process and leaves the slot as
    it was. *)
Theorem warmup_never_raises engine st :
  _warmup_engine engine st =
    (Return (),
     mkState (_engine st)
       (snd (analyse engine chess_Board_start (mkLimit (1 # 100)) (world st)))
       (trace st ++ [EvSleep (3 # 10);
                     EvAnalyse engine chess_Board_start (mkLimit (1 # 100))])%list).
Proof.
  destruct (_warmup_engine_returns engine st) as (w & -> & ->). reflexivity.
Qed.

(** X2.  [_spawn_engine] returns a handle exactly when [popen_uci] on
    [ENGINE_PATH] returns it and [configure] with [STOCKFISH_CONFIG]
    accepts: the warm-up cannot make it fail.  Whatever it does, it never
    writes the slot. *)
Theorem spawn_returns_iff_started_and_configured st engine :
  ((exists st' : State, _spawn_engine package_dir st = (Return engine, st')) <->
   (exists w1 w2 : World,
      popen_uci (ENGINE_PATH package_dir) (world st) = (Return engine, w1) /\
      configure engine Config.STOCKFISH_CONFIG w1 = (Return (), w2))) /\
  (forall (r : Outcome Handle) (st' : State),
     _spawn_engine package_dir st = (r, st') -> _engine st' = _engine st).
Proof.
  rewrite _spawn_engine_equation.
  destruct (popen_uci (ENGINE_PATH package_dir) (world st)) as [[held | e] w1].
  2:{ split; [split |].
      - intros (st' & [=]).
      - intros (w1' & w2 & [=] & _).
      - now intros r st' [= <- <-]. }
  destruct (configure held Config.STOCKFISH_CONFIG w1) as [[[] | e] w2] eqn:Hconf.
  - split; [split |].
    + intros (st' & [= -> _]). now exists w1, w2.
    + intros (w1' & w2' & [= -> _] & _). eauto.
    + now intros r st' [= <- <-].
  - split; [split |].
    + intros (st' & [=]).
    + intros (w1' & w2' & [= -> <-] & Hconf'). rewrite Hconf in Hconf'. discriminate.
    + now intros r st' [= <- <-].
Qed.

(** X3.  [_hard_reset_engine] never raises and always leaves the slot
    empty, also when [quit] raises: it logs
    ["ENGINE HARD RESET: <reason>"], then quits the held handle once, or
    touches nothing when no handle is held. *)
Theorem hard_reset_always_clears (reason : string) st :
  exists st' : State,
    _hard_reset_engine reason st = (Return (), st') /\
    _engine st' = None /\
    trace st' =
      (trace st ++
       EvLog ERROR ("ENGINE HARD RESET: " ++ reason)%string ::
       match _engine st with
       | Some engine => [EvQuit engine]
       | None => []
       end)%list /\
    world st' =
      match _engine st with
      | Some engine => snd (quit engine (world st))
      | None => world st
      end.
Proof.
  rewrite _hard_reset_engine_state. eexists. split; [reflexivity |].
  repeat split.
Qed.

(** X4.  Closing twice quits once: the first [close_engine] logs, quits
    the held handle, if any, and empties the slot; the second only writes
    its log line, with no call to the process. *)
Theorem close_engine_twice_quits_once st :
  exists st1 st2 : State,
    close_engine st = (Return (), st1) /\
    close_engine st1 = (Return (), st2) /\
    _engine st1 = None /\
    trace st1 =
      (trace st ++
       EvLog ERROR "ENGINE HARD RESET: manual close" ::
       match _engine st with
       | Some engine => [EvQuit engine]
       | None => []
       end)%list /\
    world st1 =
      match _engine st with
      | Some engine => snd (quit engine (world st))
      | None => world st
      end /\
    _engine st2 = None /\
    world st2 = world st1 /\
    trace st2 = (trace st1 ++ [EvLog ERROR "ENGINE HARD RESET: manual close"])%list /\
    count is_quit (trace st2) =
      (count is_quit (trace st) +
       match _engine st with
       | Some _ => 1
       | None => 0
       end)%nat.
Proof.
  unfold close_engine. rewrite _hard_reset_engine_state.
  eexists _, _. split; [reflexivity |].
  rewrite _hard_reset_engine_state. cbn [_engine world trace].
  split; [reflexivity |]. repeat split.
  cbn [trace]. rewrite !count_app. destruct (_engine st); cbn; lia.
Qed.

(** X5.  After [close_engine] the next acquisition always starts a new
    process: it calls [popen_uci] exactly once, and a handle it returns is
    the one [popen_uci] gave, now stored in the slot. *)
Theorem acquire_after_close_spawns st st1 (r : Outcome Handle) (st2 : State) :
  close_engine st = (Return (), st1) ->
  _get_engine package_dir st1 = (r, st2) ->
  count is_spawn (trace st2) = S (count is_spawn (trace st1)) /\
  (forall engine, r = Return engine ->
     fst (popen_uci (ENGINE_PATH package_dir) (world st1)) = Return engine /\
     _engine st2 = Some engine).
Proof.
  unfold close_engine. rewrite _hard_reset_engine_state. intros [= <-].
  set (st1 := mkState None _ _).
  assert (Hslot : _engine st1 = None) by reflexivity.
  intros Hget. split.
  - destruct (_get_engine_calls _ _ _ Hget) as (evs & -> & _ & _ & _ & _ & Hone & _).
    rewrite count_app, (Hone Hslot). lia.
  - intros engine ->. split; [| now apply _get_engine_stores in Hget].
    rewrite (_get_engine_equation _ Hslot) in Hget.
    destruct (popen_uci (ENGINE_PATH package_dir) (world st1)) as [[held | e] w1];
      [| discriminate].
    destruct (configure held Config.STOCKFISH_CONFIG w1) as [[[] | e] w2];
      [| discriminate].
    now injection Hget as -> _.
Qed.

(** X6.  An acquisition that raises stores nothing: it raises only with the
    slot empty, the slot is still empty afterwards, nothing was quit, and
    the exception is the one [popen_uci] raised or, with the process
    started, the one [configure] raised. *)
Theorem acquire_failure_stores_nothing st e (st' : State) :
  _get_engine package_dir st = (Raise e, st') ->
  _engine st = None /\
  _engine st' = None /\
  count is_quit (trace st') = count is_quit (trace st) /\
  (fst (popen_uci (ENGINE_PATH package_dir) (world st)) = Raise e \/
   exists engine (w1 : World),
     popen_uci (ENGINE_PATH package_dir) (world st) = (Return engine, w1) /\
     fst (configure engine Config.STOCKFISH_CONFIG w1) = Raise e).
Proof.
  intros Hget.
  destruct (_get_engine_raises_empty _ _ _ Hget) as [Hslot Hslot'].
  split; [exact Hslot |]. split; [exact Hslot' |]. split.
  - destruct (_get_engine_calls _ _ _ Hget) as (evs & -> & _ & _ & Hquit & _).
    rewrite count_app, Hquit. lia.
  - rewrite (_get_engine_equation _ Hslot) in Hget.
    destruct (popen_uci (ENGINE_PATH package_dir) (world st)) as [[held | e1] w1].
    2:{ left. now injection Hget as -> _. }
    right. exists held, w1. split; [reflexivity |].
    destruct (configure held Config.STOCKFISH_CONFIG w1) as [[[] | e2] w2];
      [discriminate |].
    now injection Hget as -> _.
Qed.

End Lifecycle.

(** ** Requests, one after another *)

Section Requests.

Context `{ET : EngineTransport}.
Variable package_dir : string.

Implicit Types (st : State) (engine : Handle) (e : Exception).
Implicit Types (input_data : gmap string PyVal) (board : Board).

Lemma time_check_positive (v : PyVal) :
  negb (isinstance_int v) || (int_of v <=? 0)%Z = false -> positive_integer v.
Proof.
  intros Hcheck. destruct v as [ | [|] | n | | | | ]; simpl in Hcheck; try discriminate.
  - constructor.
  - constructor. now apply Z.leb_gt.
Qed.

Lemma positive_integer_decide (v : PyVal) : positive_integer v \/ ~ positive_integer v.
Proof.
  destruct (negb (isinstance_int v) || (int_of v <=? 0)%Z) eqn:Hcheck.
  - right. intros Hpos. rewrite (positive_integer_accepted _ Hpos) in Hcheck. discriminate.
  - left. now apply time_check_positive.
Qed.

Lemma fen_not_string_raises input_data st :
  (forall s : string, input_data !! "fen" <> Some (PyStr s)) ->
  evaluate_position package_dir input_data st =
    (Raise (ValueError "fen must be a string"), st).
Proof.
  intros Hnot. apply non_string_position_raises. unfold dict_get.
  destruct (input_data !! "fen") as [[ | | | | s | | ] | ]; try reflexivity.
  now destruct (Hnot s).
Qed.

Lemma time_ms_not_positive_raises input_data (fen : string) st :
  input_data !! "fen" = Some (PyStr fen) ->
  ~ positive_integer (dict_get input_data "time_ms" (PyInt Config.DEFAULT_TIME_MS)) ->
  evaluate_position package_dir input_data st =
    (Raise (ValueError "time_ms must be a positive integer"), st).
Proof.
  intros Hfen Hneg. unfold evaluate_position. unfold dict_get at 1.
  rewrite Hfen. cbv zeta.
  now rewrite (not_positive_integer_rejected _ Hneg).
Qed.

Lemma unparsable_raises input_data (fen : string) e st :
  input_data !! "fen" = Some (PyStr fen) ->
  positive_integer (dict_get input_data "time_ms" (PyInt Config.DEFAULT_TIME_MS)) ->
  chess_Board fen = Raise e ->
  evaluate_position package_dir input_data st = (Raise e, st).
Proof.
  intros Hfen Hpos Hparse.
  rewrite (evaluate_position_validated _ _ fen _ st Hfen eq_refl Hpos).
  now rewrite Hparse.
Qed.

Lemma valid_request_accepted input_data (fen : string) board :
  input_data !! "fen" = Some (PyStr fen) ->
  positive_integer (dict_get input_data "time_ms" (PyInt Config.DEFAULT_TIME_MS)) ->
  chess_Board fen = Return board ->
  accepted_request input_data fen
    (int_of (dict_get input_data "time_ms" (PyInt Config.DEFAULT_TIME_MS))) board.
Proof.
  intros Hfen Hpos Hboard. split; [exact Hfen | | exact Hboard].
  unfold dict_get in *. destruct (input_data !! "time_ms") as [v | ] eqn:Htime.
  - right. exists v. auto.
  - left. auto.
Qed.

(** Every request either raises at once, for one of four reasons, or is an
    accepted request with a time budget within the floats. *)
Lemma request_cases input_data st :
  (exists e,
     evaluate_position package_dir input_data st = (Raise e, st) /\
     ((e = ValueError "fen must be a string" /\
       forall s : string, input_data !! "fen" <> Some (PyStr s)) \/
      (e = ValueError "time_ms must be a positive integer" /\
       (exists fen : string, input_data !! "fen" = Some (PyStr fen)) /\
       ~ positive_integer (dict_get input_data "time_ms" (PyInt Config.DEFAULT_TIME_MS))) \/
      (exists fen : string,
         input_data !! "fen" = Some (PyStr fen) /\
         positive_integer (dict_get input_data "time_ms" (PyInt Config.DEFAULT_TIME_MS)) /\
         chess_Board fen = Raise e) \/
      (e = OverflowError "integer division result too large for a float" /\
       ~ fits_float
           (int_of (dict_get input_data "time_ms" (PyInt Config.DEFAULT_TIME_MS)))))) \/
  (exists (fen : string) (time_ms : Z) board,
     accepted_request input_data fen time_ms board /\ fits_float time_ms).
Proof.
  destruct (input_data !! "fen") as [vfen | ] eqn:Hfen.
  2:{ left. eexists. split.
      - apply fen_not_string_raises. rewrite Hfen. discriminate.
      - left. split; [reflexivity |]. discriminate. }
  destruct (isinstance_str vfen) eqn:Hstr.
  2:{ left. eexists. split.
      - apply fen_not_string_raises. rewrite Hfen.
        intros s [= ->]. discriminate.
      - left. split; [reflexivity |]. intros s [= ->]. discriminate. }
  destruct vfen as [ | | | | fen | | ]; try discriminate.
  destruct (positive_integer_decide
              (dict_get input_data "time_ms" (PyInt Config.DEFAULT_TIME_MS)))
    as [Hpos | Hneg].
  2:{ left. eexists. split.
      - now apply (time_ms_not_positive_raises _ fen).
      - right. left. split; [reflexivity |]. split; [now exists fen | exact Hneg]. }
  destruct (chess_Board fen) as [board | e] eqn:Hboard.
  - destruct (fits_float_decide
                (int_of (dict_get input_data "time_ms" (PyInt Config.DEFAULT_TIME_MS))))
      as [Hfits | Hover].
    + right. eexists fen, _, board. split; [| exact Hfits].
      now apply valid_request_accepted.
    + left. eexists. split.
      * exact (evaluate_position_overflows package_dir _ fen _ board st Hfen eq_refl
                 Hpos Hboard Hover).
      * right. right. right. split; [reflexivity | exact Hover].
  - left. exists e. split.
    + now apply (unparsable_raises _ fen).
    + right. right. left. now exists fen.
Qed.

Lemma normalised_ok (score : Score) (best : PyVal) :
  field "ok"
    (if Score_is_mate score then
       result_dict "mate" (py_optional_int (Score_mate score)) best true
     else
       result_dict "cp" (py_optional_int (Score_score score)) best true) =
  Some (PyBool true).
Proof. destruct (Score_is_mate score); apply result_dict_fields. Qed.

Lemma FAILURE_RESULT_not_ok : field "ok" FAILURE_RESULT = Some (PyBool false).
Proof. apply (result_dict_fields "cp" PyNone PyNone false). Qed.

(** The run of an accepted request whose analysis returns a score. *)
Lemma scored_run input_data (fen : string) (time_ms : Z) board st engine st1
    (info : InfoDict) (povscore : PovScore) (w : World) :
  accepted_request input_data fen time_ms board ->
  fits_float time_ms ->
  _get_engine package_dir st = (Return engine, st1) ->
  analyse engine board (limit_of time_ms) (world st1) = (Return info, w) ->
  info_score info = Some povscore ->
  exists r : PyVal,
    evaluate_position package_dir input_data st =
      (Return r,
       mkState (Some engine) w
         (trace st1 ++ [EvAnalyse engine board (limit_of time_ms)])%list) /\
    field "ok" r = Some (PyBool true).
Proof.
  intros Hacc Hfits Hget Hanalyse Hscore.
  eexists. split.
  - eapply evaluate_position_success;
      [exact Hacc | exact Hfits | exact Hget | | exact Hscore].
    rewrite engine_analyse_state, Hanalyse. cbn [fst snd].
    now rewrite (_get_engine_stores _ _ _ _ Hget).
  - cbv zeta. apply normalised_ok.
Qed.

(** The run of an accepted request that fails at [st_f]. *)
Lemma failed_run input_data (fen : string) (time_ms : Z) board st e (st_f : State) :
  accepted_request input_data fen time_ms board ->
  fits_float time_ms ->
  engine_failure package_dir board (limit_of time_ms) st e st_f ->
  evaluate_position package_dir input_data st =
    (Return FAILURE_RESULT,
     mkState None
       match _engine st_f with
       | Some engine => snd (quit engine (world st_f))
       | None => world st_f
       end
       (trace st_f ++
        EvLog EXCEPTION "ENGINE analyse failed" ::
        EvLog ERROR ("ENGINE HARD RESET: " ++ exc_name e)%string ::
        match _engine st_f with
        | Some engine => [EvQuit engine]
        | None => []
        end)%list).
Proof.
  intros Hacc Hfits Hfail.
  rewrite (evaluate_position_failure _ _ _ _ _ _ _ _ Hacc Hfits Hfail).
  rewrite _hard_reset_engine_state. unfold logger_exception, emit.
  cbn [snd _engine world trace]. now rewrite <- app_assoc.
Qed.

(** A failure of the analysis itself, or of the lookup of its score, on the
    handle [engine]. *)
Lemma analysis_failure board (limit : Limit) st engine st1 e :
  _get_engine package_dir st = (Return engine, st1) ->
  (fst (analyse engine board limit (world st1)) = Raise e \/
   exists info : InfoDict,
     fst (analyse engine board limit (world st1)) = Return info /\
     info_score info = None /\ e = KeyError "'score'") ->
  engine_failure package_dir board limit st e
    (mkState (Some engine) (snd (analyse engine board limit (world st1)))
       (trace st1 ++ [EvAnalyse engine board limit])%list).
Proof.
  intros Hget Hcase.
  pose proof (engine_analyse_state engine board limit st1) as Hstate.
  rewrite (_get_engine_stores _ _ _ _ Hget) in Hstate.
  destruct Hcase as [Hraise | (info & Hinfo & Hscore & ->)].
  - rewrite Hraise in Hstate. eapply failure_in_analyse; eassumption.
  - rewrite Hinfo in Hstate. eapply failure_in_normalize; eassumption.
Qed.

(** The whole run of an accepted request: it returns, a result with
    [ok: True] and the handle held, or the failure result and the slot
    empty, and these are the calls it makes at most. *)
Lemma accepted_run input_data (fen : string) (time_ms : Z) board st :
  accepted_request input_data fen time_ms board ->
  fits_float time_ms ->
  exists (r : PyVal) (st' : State) (evs : list Event),
    evaluate_position package_dir input_data st = (Return r, st') /\
    trace st' = (trace st ++ evs)%list /\
    ((field "ok" r = Some (PyBool true) /\
      (exists engine, _engine st' = Some engine) /\
      count is_quit evs = 0%nat /\ count is_reset evs = 0%nat) \/
     (r = FAILURE_RESULT /\ _engine st' = None /\
      (count is_quit evs <= 1)%nat /\ count is_reset evs = 1%nat)) /\
    (count is_analyse evs <= 2)%nat /\
    (_engine st = None -> count is_spawn evs = 1%nat) /\
    (forall held, _engine st = Some held ->
       count is_spawn evs = 0%nat /\ count is_analyse evs = 1%nat).
Proof.
  intros Hacc Hfits.
  destruct (_get_engine package_dir st) as [[engine | e] st1] eqn:Hget.
  2:{ destruct (_get_engine_calls _ _ _ _ Hget)
        as (evs1 & Htrace & Hspawn & Hanalyse & Hquit & Hreset & Hnone & Hheld).
      destruct (_get_engine_raises_empty _ _ _ _ Hget) as [Hslot Hslot1].
      assert (Hfail : engine_failure package_dir board (limit_of time_ms) st e st1)
        by now apply failure_in_acquire.
      eexists _, _, (evs1 ++ _)%list. split; [exact (failed_run _ _ _ _ _ _ _ Hacc Hfits Hfail) |].
      rewrite Hslot1. cbn [trace _engine]. rewrite Htrace, <- app_assoc.
      split; [reflexivity |]. rewrite !count_app, Hquit, Hreset, (Hnone Hslot).
      split; [right; cbn; repeat split; lia |].
      split; [cbn; lia |]. split; [cbn; lia |].
      intros held Hsome. rewrite Hslot in Hsome. discriminate. }
  destruct (_get_engine_calls _ _ _ _ Hget)
    as (evs1 & Htrace & Hspawn & Hanalyse & Hquit & Hreset & Hnone & Hheld).
  assert (Hcounts : (count is_analyse evs1 <= 1)%nat /\
                    (_engine st = None -> count is_spawn evs1 = 1%nat) /\
                    (forall held, _engine st = Some held ->
                       count is_spawn evs1 = 0%nat /\ count is_analyse evs1 = 0%nat)).
  { split; [exact Hanalyse |]. split; [exact Hnone |].
    intros held Hsome. now rewrite (Hheld _ Hsome). }
  clear Hanalyse Hnone Hheld Hspawn. destruct Hcounts as (Hanalyse & Hnone & Hheld).
  destruct (analyse engine board (limit_of time_ms) (world st1)) as [[info | e] w] eqn:Hrun.
  - destruct (info_score info) as [povscore | ] eqn:Hscore.
    + destruct (scored_run _ _ _ _ _ _ _ _ _ _ Hacc Hfits Hget Hrun Hscore) as (r & Hret & Hok).
      eexists r, _, (evs1 ++ _)%list. split; [exact Hret |].
      cbn [trace _engine]. rewrite Htrace, <- app_assoc.
      split; [reflexivity |]. rewrite !count_app, Hquit, Hreset.
      split; [left; cbn; repeat split; eauto |].
      split; [cbn; lia |]. split; [intros Hslot; rewrite (Hnone Hslot); cbn; lia |].
      intros held Hsome. destruct (Hheld _ Hsome) as [-> ->]. cbn. lia.
    + assert (Hfail : engine_failure package_dir board (limit_of time_ms) st
                        (KeyError "'score'")
                        (mkState (Some engine)
                           (snd (analyse engine board (limit_of time_ms) (world st1)))
                           (trace st1 ++ [EvAnalyse engine board (limit_of time_ms)])%list)).
      { apply analysis_failure; [exact Hget |]. right. exists info.
        rewrite Hrun. auto. }
      eexists _, _, (evs1 ++ _)%list.
      split; [exact (failed_run _ _ _ _ _ _ _ Hacc Hfits Hfail) |].
      cbn [trace _engine]. rewrite Htrace, <- !app_assoc.
      split; [reflexivity |]. rewrite !count_app, Hquit, Hreset.
      split; [right; cbn; repeat split; lia |].
      split; [cbn; lia |]. split; [intros Hslot; rewrite (Hnone Hslot); cbn; lia |].
      intros held Hsome. destruct (Hheld _ Hsome) as [-> ->]. cbn. lia.
  - assert (Hfail : engine_failure package_dir board (limit_of time_ms) st e
                      (mkState (Some engine)
                         (snd (analyse engine board (limit_of time_ms) (world st1)))
                         (trace st1 ++ [EvAnalyse engine board (limit_of time_ms)])%list)).
    { apply analysis_failure; [exact Hget |]. left. now rewrite Hrun. }
    eexists _, _, (evs1 ++ _)%list.
    split; [exact (failed_run _ _ _ _ _ _ _ Hacc Hfits Hfail) |].
    cbn [trace _engine]. rewrite Htrace, <- !app_assoc.
    split; [reflexivity |]. rewrite !count_app, Hquit, Hreset.
    split; [right; cbn; repeat split; lia |].
    split; [cbn; lia |]. split; [intros Hslot; rewrite (Hnone Hslot); cbn; lia |].
    intros held Hsome. destruct (Hheld _ Hsome) as [-> ->]. cbn. lia.
Qed.

(** X7.  [evaluate_position] reads the keys ["fen"] and ["time_ms"] and
    nothing else: two requests that agree on these two keys run alike,
    whatever other keys they carry. *)
Theorem only_fen_and_time_ms_are_read input_data (input_data' : gmap string PyVal) st :
  input_data !! "fen" = input_data' !! "fen" ->
  input_data !! "time_ms" = input_data' !! "time_ms" ->
  evaluate_position package_dir input_data st =
    evaluate_position package_dir input_data' st.
Proof.
  intros Hfen Htime. unfold evaluate_position, dict_get. now rewrite Hfen, Htime.
Qed.

(** X8.  A boolean time budget is read as the integer it is in Python:
    [True] runs as a budget of 1 ms and [False] as a budget of 0, which is
    rejected. *)
Theorem boolean_time_budget_is_an_integer input_data (b : bool) st :
  input_data !! "time_ms" = Some (PyBool b) ->
  evaluate_position package_dir input_data st =
    evaluate_position package_dir (<["time_ms" := PyInt (Z.b2z b)]> input_data) st /\
  (b = false ->
   exists e, evaluate_position package_dir input_data st = (Raise e, st)) /\
  (b = true ->
   forall (fen : string) board,
     input_data !! "fen" = Some (PyStr fen) ->
     chess_Board fen = Return board ->
     accepted_request input_data fen 1 board).
Proof.
  intros Htime. split; [| split].
  - unfold evaluate_position, dict_get.
    rewrite Htime, lookup_insert_eq, lookup_insert_ne by discriminate.
    now destruct (input_data !! "fen") as [[ | | | | fen | | ] | ].
  - intros ->.
    destruct (input_data !! "fen") as [vfen | ] eqn:Hfen.
    2:{ eexists. apply fen_not_string_raises. rewrite Hfen. discriminate. }
    destruct vfen as [ | | | | fen | | ];
      try (eexists; apply fen_not_string_raises; rewrite Hfen; discriminate).
    eexists. apply (time_ms_not_positive_raises _ fen _ Hfen).
    unfold dict_get. rewrite Htime. intros Hpos.
    apply positive_integer_int_of in Hpos. simpl in Hpos. lia.
  - intros -> fen board Hfen Hboard. split; auto.
    right. exists (PyBool true). repeat split; auto. constructor.
Qed.

(** X9.  The checks run in a fixed order.  A position that is missing or
    not a string raises [ValueError("fen must be a string")] whatever the
    time budget is; with a string position, a time budget that is not a
    positive integer raises
    [ValueError("time_ms must be a positive integer")] whether or not the
    position would parse.  In both cases the state is left as it was. *)
Theorem validation_checks_position_first input_data st :
  ((forall s : string, input_data !! "fen" <> Some (PyStr s)) ->
   evaluate_position package_dir input_data st =
     (Raise (ValueError "fen must be a string"), st)) /\
  (forall (fen : string) (v : PyVal),
     input_data !! "fen" = Some (PyStr fen) ->
     input_data !! "time_ms" = Some v ->
     ~ positive_integer v ->
     evaluate_position package_dir input_data st =
       (Raise (ValueError "time_ms must be a positive integer"), st)).
Proof.
  split.
  - apply fen_not_string_raises.
  - intros fen v Hfen Htime Hneg.
    apply (time_ms_not_positive_raises _ fen _ Hfen).
    unfold dict_get. now rewrite Htime.
Qed.

(** X10.  Whenever [evaluate_position] raises, the state is exactly what it
    was (no spawn, no call, no log line, the slot untouched), and, for a
    time budget within the floats, the exception is one of three: the
    [ValueError] for a position that is not a string, the [ValueError] for
    a time budget that is not a positive integer, or the exception
    ChessRules raised on the position string. *)
Theorem raise_leaves_state_untouched input_data st e (st' : State) :
  evaluate_position package_dir input_data st = (Raise e, st') ->
  st' = st /\
  (fits_float (int_of (dict_get input_data "time_ms" (PyInt Config.DEFAULT_TIME_MS))) ->
   (e = ValueError "fen must be a string" /\
    forall s : string, input_data !! "fen" <> Some (PyStr s)) \/
   (e = ValueError "time_ms must be a positive integer" /\
    (exists fen : string, input_data !! "fen" = Some (PyStr fen)) /\
    ~ positive_integer (dict_get input_data "time_ms" (PyInt Config.DEFAULT_TIME_MS))) \/
   (exists fen : string,
      input_data !! "fen" = Some (PyStr fen) /\
      positive_integer (dict_get input_data "time_ms" (PyInt Config.DEFAULT_TIME_MS)) /\
      chess_Board fen = Raise e)).
Proof.
  intros Hraise.
  destruct (request_cases input_data st)
    as [(e0 & Hraise0 & Hcause) | (fen & time_ms & board & Hacc & Hfits)].
  - rewrite Hraise0 in Hraise. injection Hraise as -> ->.
    split; [reflexivity |]. intros Hfits.
    destruct Hcause as [Hc | [Hc | [Hc | [_ Hover]]]]; auto.
    now destruct Hover.
  - destruct (accepted_run _ _ _ _ st Hacc Hfits) as (r & st1 & evs & Hret & _).
    rewrite Hret in Hraise. discriminate.
Qed.

(** X11.  With a handle held, an accepted request (its time budget within
    the floats) goes straight to the analysis: its first and only analysis
    is on the held handle, with the parsed position and a limit of
    [time_ms / 1000] seconds, and nothing is spawned.  Either it returns [ok: True] having made no other call and
    the same handle stays held, or it returns the failure result after
    logging and quitting that handle, and the slot is empty. *)
Theorem held_engine_is_reused input_data (fen : string) (time_ms : Z) board st engine :
  accepted_request input_data fen time_ms board ->
  fits_float time_ms ->
  _engine st = Some engine ->
  exists (r : PyVal) (st' : State) (rest : list Event),
    evaluate_position package_dir input_data st = (Return r, st') /\
    world st' =
      match _engine st' with
      | Some _ => snd (analyse engine board (limit_of time_ms) (world st))
      | None => snd (quit engine (snd (analyse engine board (limit_of time_ms) (world st))))
      end /\
    trace st' = (trace st ++ EvAnalyse engine board (limit_of time_ms) :: rest)%list /\
    ((field "ok" r = Some (PyBool true) /\ _engine st' = Some engine /\ rest = []) \/
     (r = FAILURE_RESULT /\ _engine st' = None /\
      exists name : string,
        rest = [EvLog EXCEPTION "ENGINE analyse failed";
                EvLog ERROR ("ENGINE HARD RESET: " ++ name)%string;
                EvQuit engine])).
Proof.
  intros Hacc Hfits Hheld.
  pose proof (_get_engine_held package_dir _ _ Hheld) as Hget.
  destruct (analyse engine board (limit_of time_ms) (world st)) as [[info | e] w] eqn:Hrun.
  - destruct (info_score info) as [povscore | ] eqn:Hscore.
    + destruct (scored_run _ _ _ _ _ _ _ _ _ _ Hacc Hfits Hget Hrun Hscore) as (r & Hret & Hok).
      eexists r, _, []. split; [exact Hret |]. cbn [world trace _engine].
      repeat split. left. auto.
    + assert (Hfail : engine_failure package_dir board (limit_of time_ms) st
                        (KeyError "'score'")
                        (mkState (Some engine)
                           (snd (analyse engine board (limit_of time_ms) (world st)))
                           (trace st ++ [EvAnalyse engine board (limit_of time_ms)])%list)).
      { apply analysis_failure; [exact Hget |]. right. exists info.
        rewrite Hrun. auto. }
      rewrite Hrun in Hfail.
      eexists _, _, _. split; [exact (failed_run _ _ _ _ _ _ _ Hacc Hfits Hfail) |].
      cbn [world trace _engine snd]. rewrite <- app_assoc.
      repeat split. right. repeat split. eexists. reflexivity.
  - assert (Hfail : engine_failure package_dir board (limit_of time_ms) st e
                      (mkState (Some engine)
                         (snd (analyse engine board (limit_of time_ms) (world st)))
                         (trace st ++ [EvAnalyse engine board (limit_of time_ms)])%list)).
    { apply analysis_failure; [exact Hget |]. left. now rewrite Hrun. }
    rewrite Hrun in Hfail.
    eexists _, _, _. split; [exact (failed_run _ _ _ _ _ _ _ Hacc Hfits Hfail) |].
    cbn [world trace _engine snd]. rewrite <- app_assoc.
    repeat split. right. repeat split. eexists. reflexivity.
Qed.

(** X12.  The [ok] flag of a returned result tells what the slot holds
    afterwards: [ok: True] comes with a handle held, and the only other
    result is the fixed failure result, which comes with the slot empty. *)
Theorem ok_tells_whether_engine_is_held input_data st (r : PyVal) (st' : State) :
  evaluate_position package_dir input_data st = (Return r, st') ->
  (field "ok" r = Some (PyBool true) /\ exists engine, _engine st' = Some engine) \/
  (r = FAILURE_RESULT /\ _engine st' = None).
Proof.
  intros Hret.
  destruct (request_cases input_data st)
    as [(e0 & Hraise0 & _) | (fen & time_ms & board & Hacc & Hfits)].
  - rewrite Hraise0 in Hret. discriminate.
  - destruct (accepted_run _ _ _ _ st Hacc Hfits)
      as (r1 & st1 & evs & Hret1 & _ & [(Hok & Hslot & _) | (Hr & Hslot & _)] & _);
      rewrite Hret1 in Hret; injection Hret as <- <-; auto.
Qed.

(** X13.  One call of [evaluate_position], on any input and in any state,
    only appends to the history of calls, and appends at most one spawn,
    two analyses (the warm-up and the request), one reset and one quit;
    with a handle held it spawns nothing and analyses at most once. *)
Theorem calls_are_bounded input_data st (o : Outcome PyVal) (st' : State) :
  evaluate_position package_dir input_data st = (o, st') ->
  exists evs : list Event,
    trace st' = (trace st ++ evs)%list /\
    (count is_spawn evs <= 1)%nat /\
    (count is_analyse evs <= 2)%nat /\
    (count is_reset evs <= 1)%nat /\
    (count is_quit evs <= 1)%nat /\
    (_engine st <> None ->
     count is_spawn evs = 0%nat /\ (count is_analyse evs <= 1)%nat).
Proof.
  intros Hrun.
  destruct (request_cases input_data st)
    as [(e0 & Hraise0 & _) | (fen & time_ms & board & Hacc & Hfits)].
  - rewrite Hraise0 in Hrun. injection Hrun as <- <-.
    exists []. rewrite app_nil_r. cbn. repeat split; lia.
  - destruct (accepted_run _ _ _ _ st Hacc Hfits)
      as (r1 & st1 & evs & Hret1 & Htrace & Hcase & Hanalyse & Hnone & Hheld).
    rewrite Hret1 in Hrun. injection Hrun as <- <-.
    exists evs. split; [exact Htrace |].
    assert (Hspawn : (count is_spawn evs <= 1)%nat).
    { destruct (_engine st) as [held | ] eqn:Hslot.
      - destruct (Hheld held eq_refl) as [-> _]. lia.
      - rewrite (Hnone eq_refl). lia. }
    split; [exact Hspawn |]. split; [exact Hanalyse |].
    split; [destruct Hcase as [(_ & _ & _ & ->) | (_ & _ & _ & ->)]; lia |].
    split; [destruct Hcase as [(_ & _ & -> & _) | (_ & _ & Hquit & _)]; lia |].
    intros Hsome. destruct (_engine st) as [held | ]; [| now destruct Hsome].
    destruct (Hheld held eq_refl) as [-> ->]. lia.
Qed.

(** X14.  The engine persists across requests: after a result with
    [ok: True], the next accepted request (its time budget within the
    floats) spawns nothing and analyses once. *)
Theorem engine_persists_after_success input_data st (r : PyVal) (st1 : State)
    (input_data' : gmap string PyVal) (fen : string) (time_ms : Z) board :
  evaluate_position package_dir input_data st = (Return r, st1) ->
  field "ok" r = Some (PyBool true) ->
  accepted_request input_data' fen time_ms board ->
  fits_float time_ms ->
  exists (r' : PyVal) (st2 : State) (evs : list Event),
    evaluate_position package_dir input_data' st1 = (Return r', st2) /\
    trace st2 = (trace st1 ++ evs)%list /\
    count is_spawn evs = 0%nat /\
    count is_analyse evs = 1%nat.
Proof.
  intros Hret Hok Hacc Hfits.
  assert (Hslot : exists engine, _engine st1 = Some engine).
  { destruct (request_cases input_data st)
      as [(e0 & Hraise0 & _) | (fen0 & time_ms0 & board0 & Hacc0 & Hfits0)].
    - rewrite Hraise0 in Hret. discriminate.
    - destruct (accepted_run _ _ _ _ st Hacc0 Hfits0)
        as (r1 & st' & evs & Hret1 & _ & [(_ & Hslot & _) | (Hr & _)] & _);
        rewrite Hret1 in Hret; injection Hret as <- <-; [exact Hslot |].
      rewrite Hr, FAILURE_RESULT_not_ok in Hok. discriminate. }
  destruct Hslot as (engine & Hslot).
  destruct (accepted_run _ _ _ _ st1 Hacc Hfits)
    as (r' & st2 & evs & Hret' & Htrace & _ & _ & _ & Hheld).
  exists r', st2, evs. split; [exact Hret' |]. split; [exact Htrace |].
  exact (Hheld _ Hslot).
Qed.

(** X15.  After a failure result ([ok: False]) the next accepted request
    (its time budget within the floats) starts a new process: it calls
    [popen_uci] exactly once. *)
Theorem next_request_after_failure_spawns input_data st (r : PyVal) (st1 : State)
    (input_data' : gmap string PyVal) (fen : string) (time_ms : Z) board :
  evaluate_position package_dir input_data st = (Return r, st1) ->
  field "ok" r = Some (PyBool false) ->
  accepted_request input_data' fen time_ms board ->
  fits_float time_ms ->
  exists (r' : PyVal) (st2 : State) (evs : list Event),
    evaluate_position package_dir input_data' st1 = (Return r', st2) /\
    trace st2 = (trace st1 ++ evs)%list /\
    count is_spawn evs = 1%nat.
Proof.
  intros Hret Hok Hacc Hfits.
  assert (Hslot : _engine st1 = None).
  { destruct (request_cases input_data st)
      as [(e0 & Hraise0 & _) | (fen0 & time_ms0 & board0 & Hacc0 & Hfits0)].
    - rewrite Hraise0 in Hret. discriminate.
    - destruct (accepted_run _ _ _ _ st Hacc0 Hfits0)
        as (r1 & st' & evs & Hret1 & _ & [(Hok1 & _) | (_ & Hslot & _)] & _);
        rewrite Hret1 in Hret; injection Hret as <- <-; [| exact Hslot].
      rewrite Hok1 in Hok. discriminate. }
  destruct (accepted_run _ _ _ _ st1 Hacc Hfits)
    as (r' & st2 & evs & Hret' & Htrace & _ & _ & Hnone & _).
  exists r', st2, evs. split; [exact Hret' |]. split; [exact Htrace |].
  exact (Hnone Hslot).
Qed.

(** X16.  An analysis that returns without a score is treated as an engine
    failure: on an accepted request (its time budget within the floats)
    the lookup raises [KeyError], the healthy handle is quit, the slot is
    emptied and the failure result is returned. *)
Theorem missing_score_resets_engine input_data (fen : string) (time_ms : Z) board
    st engine (info : InfoDict) (w : World) :
  accepted_request input_data fen time_ms board ->
  fits_float time_ms ->
  _engine st = Some engine ->
  analyse engine board (limit_of time_ms) (world st) = (Return info, w) ->
  info_score info = None ->
  evaluate_position package_dir input_data st =
    (Return FAILURE_RESULT,
     mkState None (snd (quit engine w))
       (trace st ++ [EvAnalyse engine board (limit_of time_ms);
                     EvLog EXCEPTION "ENGINE analyse failed";
                     EvLog ERROR "ENGINE HARD RESET: KeyError";
                     EvQuit engine])%list).
Proof.
  intros Hacc Hfits Hheld Hrun Hscore.
  pose proof (_get_engine_held package_dir _ _ Hheld) as Hget.
  assert (Hfail : engine_failure package_dir board (limit_of time_ms) st
                    (KeyError "'score'")
                    (mkState (Some engine)
                       (snd (analyse engine board (limit_of time_ms) (world st)))
                       (trace st ++ [EvAnalyse engine board (limit_of time_ms)])%list)).
  { apply analysis_failure; [exact Hget |]. right. exists info.
    rewrite Hrun. auto. }
  rewrite Hrun in Hfail.
  rewrite (failed_run _ _ _ _ _ _ _ Hacc Hfits Hfail).
  cbn [world trace _engine snd]. now rewrite <- app_assoc.
Qed.

(** X17.  When the process starts but rejects its options, the exception
    of [configure] ends the accepted request (its time budget within the
    floats) with the failure result and the slot empty; the reset finds no handle in the slot, so the process that was
    started is never quit. *)
Theorem unconfigured_process_is_never_quit input_data (fen : string) (time_ms : Z)
    board st engine (w1 : World) e (w2 : World) :
  accepted_request input_data fen time_ms board ->
  fits_float time_ms ->
  _engine st = None ->
  popen_uci (ENGINE_PATH package_dir) (world st) = (Return engine, w1) ->
  configure engine Config.STOCKFISH_CONFIG w1 = (Raise e, w2) ->
  evaluate_position package_dir input_data st =
    (Return FAILURE_RESULT,
     mkState None w2
       (trace st ++ [EvLog WARNING "ENGINE: spawning new Stockfish process";
                     EvPopen (ENGINE_PATH package_dir);
                     EvConfigure engine;
                     EvLog EXCEPTION "ENGINE analyse failed";
                     EvLog ERROR ("ENGINE HARD RESET: " ++ exc_name e)%string])%list).
Proof.
  intros Hacc Hfits Hslot Hpopen Hconfigure.
  pose proof (_get_engine_equation package_dir _ Hslot) as Hget.
  rewrite Hpopen, Hconfigure in Hget.
  rewrite (failed_run _ _ _ _ _ _ _ Hacc Hfits (failure_in_acquire _ _ _ _ _ _ Hget)).
  cbn [world trace _engine]. now rewrite <- app_assoc.
Qed.

(** X18.  When the process cannot be started (the executable at
    [ENGINE_PATH] is missing, say), [evaluate_position] on an accepted
    request (its time budget within the floats) does not raise: it returns
    the failure result with the slot empty, having made no call after
    [popen_uci] but its two log lines. *)
Theorem failed_start_returns_failure_result input_data (fen : string) (time_ms : Z)
    board st e (w1 : World) :
  accepted_request input_data fen time_ms board ->
  fits_float time_ms ->
  _engine st = None ->
  popen_uci (ENGINE_PATH package_dir) (world st) = (Raise e, w1) ->
  evaluate_position package_dir input_data st =
    (Return FAILURE_RESULT,
     mkState None w1
       (trace st ++ [EvLog WARNING "ENGINE: spawning new Stockfish process";
                     EvPopen (ENGINE_PATH package_dir);
                     EvLog EXCEPTION "ENGINE analyse failed";
                     EvLog ERROR ("ENGINE HARD RESET: " ++ exc_name e)%string])%list).
Proof.
  intros Hacc Hfits Hslot Hpopen.
  pose proof (_get_engine_equation package_dir _ Hslot) as Hget.
  rewrite Hpopen in Hget.
  rewrite (failed_run _ _ _ _ _ _ _ Hacc Hfits (failure_in_acquire _ _ _ _ _ _ Hget)).
  cbn [world trace _engine]. now rewrite <- app_assoc.
Qed.

(** X22.  A request that passes validation and parsing with a time budget
    beyond the floats ([time_ms / 1000] reaches [2^1024 - 2^970]) raises
    [OverflowError]: the division is outside the [try], so the exception
    leaves [evaluate_position], before any call to the engine and with the
    state left as it was. *)
Theorem huge_time_budget_raises_overflow input_data (fen : string) (time_ms : Z)
    board st :
  accepted_request input_data fen time_ms board ->
  ~ fits_float time_ms ->
  evaluate_position package_dir input_data st =
    (Raise (OverflowError "integer division result too large for a float"), st).
Proof.
  intros Hacc Hover.
  destruct (accepted_request_time _ _ _ _ Hacc) as (v & Hv & Hpos & <-).
  exact (evaluate_position_overflows package_dir _ fen v board st
           (request_fen _ _ _ _ Hacc) Hv Hpos (request_board _ _ _ _ Hacc) Hover).
Qed.

End Requests.

(** ** The calls of one request, in full *)

Section RequestCalls.

Context `{ET : EngineTransport}.
Variable package_dir : string.

Implicit Types (st : State) (engine : Handle) (e : Exception).
Implicit Types (input_data : gmap string PyVal) (board : Board).

Lemma accepted_request_positive input_data (fen : string) (time_ms : Z) board :
  accepted_request input_data fen time_ms board -> 0 < time_ms.
Proof.
  intros [_ [[_ ->] | (v & _ & Hpos & <-)] _]; [lia |].
  now apply positive_integer_int_of.
Qed.

(** The run of an accepted request, call by call. *)
Lemma accepted_run_calls input_data (fen : string) (time_ms : Z) board st :
  accepted_request input_data fen time_ms board ->
  fits_float time_ms ->
  exists (r : PyVal) (st' : State) (evs : list Event),
    evaluate_position package_dir input_data st = (Return r, st') /\
    trace st' = (trace st ++ evs)%list /\
    request_calls package_dir board (limit_of time_ms) (_engine st) evs (_engine st').
Proof.
  intros Hacc Hfits.
  assert (Hafter : forall engine st1 (evs1 : list Event),
    _get_engine package_dir st = (Return engine, st1) ->
    trace st1 = (trace st ++ evs1)%list ->
    exists (r : PyVal) (st' : State) (rest : list Event),
      evaluate_position package_dir input_data st = (Return r, st') /\
      trace st' = (trace st ++ evs1 ++ EvAnalyse engine board (limit_of time_ms) :: rest)%list /\
      ((rest = [] /\ _engine st' = Some engine) \/
       (exists name : string,
          rest = [EvLog EXCEPTION "ENGINE analyse failed";
                  EvLog ERROR ("ENGINE HARD RESET: " ++ name)%string;
                  EvQuit engine] /\
          _engine st' = None))).
  { intros engine st1 evs1 Hget Htrace.
    assert (Hfailed : forall e,
      engine_failure package_dir board (limit_of time_ms) st e
        (mkState (Some engine)
           (snd (analyse engine board (limit_of time_ms) (world st1)))
           (trace st1 ++ [EvAnalyse engine board (limit_of time_ms)])%list) ->
      exists (r : PyVal) (st' : State) (rest : list Event),
        evaluate_position package_dir input_data st = (Return r, st') /\
        trace st' =
          (trace st ++ evs1 ++ EvAnalyse engine board (limit_of time_ms) :: rest)%list /\
        ((rest = [] /\ _engine st' = Some engine) \/
         (exists name : string,
            rest = [EvLog EXCEPTION "ENGINE analyse failed";
                    EvLog ERROR ("ENGINE HARD RESET: " ++ name)%string;
                    EvQuit engine] /\
            _engine st' = None))).
    { intros e Hfail. eexists _, _, _.
      split; [exact (failed_run _ _ _ _ _ _ _ _ Hacc Hfits Hfail) |].
      cbn [trace _engine]. rewrite Htrace, <- !app_assoc.
      split; [reflexivity |]. right. now exists (exc_name e). }
    destruct (analyse engine board (limit_of time_ms) (world st1))
      as [[info | e] w] eqn:Hrun.
    - destruct (info_score info) as [povscore | ] eqn:Hscore.
      + destruct (scored_run _ _ _ _ _ _ _ _ _ _ _ Hacc Hfits Hget Hrun Hscore)
          as (r & Hret & _).
        eexists r, _, []. split; [exact Hret |].
        cbn [trace _engine]. rewrite Htrace, <- app_assoc. auto.
      + apply (Hfailed (KeyError "'score'")).
        rewrite <- Hrun. apply analysis_failure; [exact Hget |].
        right. exists info. rewrite Hrun. auto.
    - apply (Hfailed e).
      rewrite <- Hrun. apply analysis_failure; [exact Hget |].
      left. now rewrite Hrun. }
  destruct (_engine st) as [held | ] eqn:Hslot.
  - destruct (Hafter held st [] (_get_engine_held package_dir _ _ Hslot))
      as (r & st' & rest & Hret & Htrace & [[-> Hafter'] | (name & -> & Hafter')]);
      [now rewrite app_nil_r | |];
      exists r, st'; eexists; (split; [exact Hret |]); (split; [exact Htrace |]);
      rewrite Hafter'.
    + apply calls_held_ok.
    + apply calls_held_failed.
  - pose proof (_get_engine_equation package_dir _ Hslot) as Hget.
    destruct (popen_uci (ENGINE_PATH package_dir) (world st)) as [[engine | e] w1].
    2:{ eexists _, _, _.
        split; [exact (failed_run _ _ _ _ _ _ _ _ Hacc Hfits
                         (failure_in_acquire _ _ _ _ _ _ Hget)) |].
        cbn [trace _engine]. rewrite <- app_assoc.
        split; [reflexivity |]. apply calls_not_started. }
    destruct (configure engine Config.STOCKFISH_CONFIG w1) as [[[] | e] w2].
    2:{ eexists _, _, _.
        split; [exact (failed_run _ _ _ _ _ _ _ _ Hacc Hfits
                         (failure_in_acquire _ _ _ _ _ _ Hget)) |].
        cbn [trace _engine]. rewrite <- app_assoc.
        split; [reflexivity |]. apply calls_not_configured. }
    destruct (Hafter engine _ _ Hget eq_refl)
      as (r & st' & rest & Hret & Htrace & [[-> Hafter'] | (name & -> & Hafter')]);
      exists r, st'; eexists; (split; [exact Hret |]); (split; [exact Htrace |]);
      rewrite Hafter'.
    + apply calls_spawned_ok.
    + apply calls_spawned_failed.
Qed.

(** X19.  The calls of a request that returns are one of six sequences:
    with a handle held, the analysis alone, or the analysis followed by the
    two log lines and the quit of that handle; with the slot empty, the
    spawn cut short at [popen_uci] or at [configure] and followed by the
    two log lines, or the whole spawn with its warm-up followed by the
    analysis, alone or with the two log lines and the quit. *)
Theorem request_call_sequences input_data st (r : PyVal) (st' : State) :
  evaluate_position package_dir input_data st = (Return r, st') ->
  exists (fen : string) (time_ms : Z) board (evs : list Event),
    accepted_request input_data fen time_ms board /\
    trace st' = (trace st ++ evs)%list /\
    request_calls package_dir board (limit_of time_ms) (_engine st) evs (_engine st').
Proof.
  intros Hret.
  destruct (request_cases package_dir input_data st)
    as [(e0 & Hraise0 & _) | (fen & time_ms & board & Hacc & Hfits)].
  - rewrite Hraise0 in Hret. discriminate.
  - destruct (accepted_run_calls _ _ _ _ st Hacc Hfits) as (r1 & st1 & evs & Hret1 & Htrace & Hcalls).
    rewrite Hret1 in Hret. injection Hret as <- <-.
    now exists fen, time_ms, board, evs.
Qed.

(** X20.  One call of [evaluate_position] talks to one process at most:
    every call it addresses to a handle goes to the same handle, which is
    the held one when there is one, and which is the one in the slot
    afterwards when the slot is not empty. *)
Theorem one_process_per_request input_data st (o : Outcome PyVal) (st' : State) :
  evaluate_position package_dir input_data st = (o, st') ->
  exists (evs : list Event) (process : option Handle),
    trace st' = (trace st ++ evs)%list /\
    Forall (fun ev => handle_of ev = None \/ handle_of ev = process) evs /\
    (forall held, _engine st = Some held -> process = Some held) /\
    (forall kept, _engine st' = Some kept -> evs <> [] -> process = Some kept).
Proof.
  intros Hrun.
  destruct (request_cases package_dir input_data st)
    as [(e0 & Hraise0 & _) | (fen & time_ms & board & Hacc & Hfits)].
  - rewrite Hraise0 in Hrun. injection Hrun as <- <-.
    exists [], (_engine st). rewrite app_nil_r. repeat split; auto.
  - destruct (accepted_run_calls _ _ _ _ st Hacc Hfits) as (r1 & st1 & evs & Hret1 & Htrace & Hcalls).
    rewrite Hret1 in Hrun. injection Hrun as <- <-.
    exists evs.
    remember (_engine st) as before eqn:Hbefore.
    remember (_engine st1) as after eqn:Hafter.
    destruct Hcalls as [engine | engine name | name | engine name | engine | engine name].
    + exists (Some engine). split; [exact Htrace |].
      split; [repeat (constructor; [cbn; auto |]); constructor |]. split; congruence.
    + exists (Some engine). split; [exact Htrace |].
      split; [repeat (constructor; [cbn; auto |]); constructor |]. split; congruence.
    + exists None. split; [exact Htrace |].
      split; [repeat (constructor; [cbn; auto |]); constructor |]. split; congruence.
    + exists (Some engine). split; [exact Htrace |].
      split; [repeat (constructor; [cbn; auto |]); constructor |]. split; congruence.
    + exists (Some engine). split; [exact Htrace |].
      split; [repeat (constructor; [cbn; auto |]); constructor |]. split; congruence.
    + exists (Some engine). split; [exact Htrace |].
      split; [repeat (constructor; [cbn; auto |]); constructor |]. split; congruence.
Qed.

(** X21.  Every analysis [evaluate_position] asks for has a positive time
    limit, and is either the warm-up (the starting position, 0.01 s) or the
    analysis of the request's own position under [time_ms / 1000]
    seconds. *)
Theorem analysis_limits_are_positive input_data st (o : Outcome PyVal) (st' : State) :
  evaluate_position package_dir input_data st = (o, st') ->
  exists evs : list Event,
    trace st' = (trace st ++ evs)%list /\
    Forall (fun ev =>
              forall engine board (limit : Limit),
                ev = EvAnalyse engine board limit ->
                (0 < limit_time limit)%Q /\
                ((board = chess_Board_start /\ limit = mkLimit (1 # 100)) \/
                 exists fen : string,
                   input_data !! "fen" = Some (PyStr fen) /\
                   chess_Board fen = Return board /\
                   limit =
                     limit_of
                       (int_of (dict_get input_data "time_ms"
                                  (PyInt Config.DEFAULT_TIME_MS))))) evs.
Proof.
  intros Hrun.
  destruct (request_cases package_dir input_data st)
    as [(e0 & Hraise0 & _) | (fen & time_ms & board & Hacc & Hfits)].
  - rewrite Hraise0 in Hrun. injection Hrun as <- <-.
    exists []. rewrite app_nil_r. split; [reflexivity | constructor].
  - destruct (accepted_run_calls _ _ _ _ st Hacc Hfits) as (r1 & st1 & evs & Hret1 & Htrace & Hcalls).
    rewrite Hret1 in Hrun. injection Hrun as <- <-.
    exists evs. split; [exact Htrace |].
    pose proof (accepted_request_positive _ _ _ _ Hacc) as Hpos.
    assert (Hrequest : forall engine engine' board' (limit : Limit),
      EvAnalyse engine board (limit_of time_ms) = EvAnalyse engine' board' limit ->
      (0 < limit_time limit)%Q /\
      ((board' = chess_Board_start /\ limit = mkLimit (1 # 100)) \/
       exists fen : string,
         input_data !! "fen" = Some (PyStr fen) /\
         chess_Board fen = Return board' /\
         limit =
           limit_of
             (int_of (dict_get input_data "time_ms" (PyInt Config.DEFAULT_TIME_MS))))).
    { intros engine engine' board' limit [= _ <- <-]. split.
      - unfold limit_of, Qlt. simpl. lia.
      - right. exists fen.
        split; [exact (request_fen _ _ _ _ Hacc) |].
        split; [exact (request_board _ _ _ _ Hacc) |].
        destruct (accepted_request_time _ _ _ _ Hacc) as (v & -> & _ & ->).
        reflexivity. }
    assert (Hwarm : forall engine engine' board' (limit : Limit),
      EvAnalyse engine chess_Board_start (mkLimit (1 # 100)) =
        EvAnalyse engine' board' limit ->
      (0 < limit_time limit)%Q /\
      ((board' = chess_Board_start /\ limit = mkLimit (1 # 100)) \/
       exists fen : string,
         input_data !! "fen" = Some (PyStr fen) /\
         chess_Board fen = Return board' /\
         limit =
           limit_of
             (int_of (dict_get input_data "time_ms" (PyInt Config.DEFAULT_TIME_MS))))).
    { intros engine engine' board' limit [= _ <- <-]. split; [reflexivity | auto]. }
    destruct Hcalls;
      repeat (constructor;
              [intros engine' board' limit' Heq;
               first [discriminate Heq
                     | revert Heq; apply Hrequest
                     | revert Heq; apply Hwarm] |]);
      constructor.
Qed.

End RequestCalls.

(** ** The scripted engine at work *)

#[local] Existing Instances Scripted.rules Scripted.transport.

Import Scripted.

(** The local debug request on a healthy engine, from a cold start. *)
Example debug_run_cold_start :
  evaluate_position "" test_input (fresh []) =
    (Return (result_dict "cp" (PyInt 35) (PyStr "e7e5") true),
     mkState (Some 0%nat) (mkProcess 1 [])
       [EvLog WARNING "ENGINE: spawning new Stockfish process";
        EvPopen "stockfish-windows-x86-64-avx2.exe";
        EvConfigure 0%nat;
        EvSleep (3 # 10);
        EvAnalyse 0%nat chess_Board_start (mkLimit (1 # 100));
        EvAnalyse 0%nat (BLACK_TO_MOVE, false) (limit_of 100)]).
Proof. vm_compute. reflexivity. Qed.

Lemma test_input_accepted :
  accepted_request test_input BLACK_TO_MOVE 100 (BLACK_TO_MOVE, false).
Proof.
  split; [reflexivity | | reflexivity].
  right. exists (PyInt 100).
  split; [reflexivity | split; [constructor; lia | reflexivity]].
Defined.

Lemma debug_budget_fits_float : fits_float 100.
Proof. reflexivity. Defined.

(** C1, the claim as stated fails: the empty dictionary fails validation and
    [evaluate_position] raises instead of returning a result. *)
Lemma empty_request_raises :
  evaluate_position "" ∅ (fresh []) =
    (Raise (ValueError "fen must be a string"), fresh []) /\
  ~ (exists (r : PyVal) (st' : State),
       evaluate_position "" ∅ (fresh []) = (Return r, st') /\ fixed_shape r).
Proof.
  assert (Hraise : evaluate_position "" ∅ (fresh []) =
                     (Raise (ValueError "fen must be a string"), fresh []))
    by reflexivity.
  split; [exact Hraise |].
  intros (r & st' & Hret & _). rewrite Hraise in Hret. discriminate.
Qed.

Lemma accepted_request_returns_fixed_shape_witness :
  accepted_request test_input BLACK_TO_MOVE 100 (BLACK_TO_MOVE, false) /\
  (exists (r : PyVal) (st' : State),
     evaluate_position "" test_input (fresh []) = (Return r, st') /\
     fixed_shape r) /\
  (exists e,
     evaluate_position "" zero_budget_input (fresh []) = (Raise e, fresh []) /\
     exc_name e = "ValueError").
Proof.
  split; [exact test_input_accepted |]. split.
  - exact (proj1 (accepted_request_returns_fixed_shape "" test_input (fresh []))
             _ _ _ test_input_accepted debug_budget_fits_float).
  - apply (proj2 (accepted_request_returns_fixed_shape "" zero_budget_input (fresh []))).
    right.
    assert (Hzero : dict_get zero_budget_input "time_ms"
                      (PyInt Config.DEFAULT_TIME_MS) = PyInt 0) by reflexivity.
    rewrite Hzero. intros Hpos.
    apply positive_integer_int_of in Hpos. simpl in Hpos. lia.
Defined.

Lemma crash_is_engine_failure :
  engine_failure "" (BLACK_TO_MOVE, false) (limit_of 100)
    (ready [Crash EngineTerminatedError]) EngineTerminatedError CRASHED.
Proof. eapply failure_in_analyse; reflexivity. Defined.

Lemma engine_failure_resets_without_retry_witness :
  exists st' : State,
    evaluate_position "" test_input (ready [Crash EngineTerminatedError]) =
      (Return FAILURE_RESULT, st') /\
    _engine st' = None /\
    trace st' =
      [EvAnalyse 0%nat (BLACK_TO_MOVE, false) (limit_of 100);
       EvLog EXCEPTION "ENGINE analyse failed";
       EvLog ERROR "ENGINE HARD RESET: EngineTerminatedError";
       EvQuit 0%nat].
Proof.
  destruct (engine_failure_resets_without_retry "" _ _ _ _ _ _ _
              test_input_accepted debug_budget_fits_float crash_is_engine_failure)
    as (st' & Hret & Hslot & Htrace & _).
  exists st'. split; [exact Hret |]. split; [exact Hslot |]. exact Htrace.
Defined.

Lemma get_engine_single_handle_witness :
  _get_engine "" (ready []) = (Return 0%nat, ready []) /\
  acquire_n "" 3 (ready []) = (Return [0%nat; 0%nat; 0%nat], ready []).
Proof.
  assert (Hget : _get_engine "" (ready []) = (Return 0%nat, ready []))
    by reflexivity.
  split; [exact Hget |].
  destruct (get_engine_single_handle "" _ _ _ Hget) as (_ & _ & Hheld & _).
  assert (Hslot : _engine (ready []) = Some 0%nat) by reflexivity.
  destruct (Hheld _ Hslot) as (_ & _ & Hn).
  exact (Hn 3%nat).
Defined.

Lemma invalid_time_budget_rejected_witness :
  zero_budget_input !! "time_ms" = Some (PyInt 0) /\
  exists e,
    evaluate_position "" zero_budget_input (fresh []) = (Raise e, fresh []) /\
    exc_name e = "ValueError".
Proof.
  assert (Hv : zero_budget_input !! "time_ms" = Some (PyInt 0)) by reflexivity.
  split; [exact Hv |].
  apply (invalid_time_budget_rejected "" _ _ _ Hv).
  intros Hpos. apply positive_integer_int_of in Hpos. simpl in Hpos. lia.
Defined.

(** A budget of -5, a budget given as a string, as a float and as [None] are
    rejected in the same way. *)
Example negative_time_budget_rejected :
  evaluate_position ""
    ({[ "fen" := PyStr BLACK_TO_MOVE; "time_ms" := PyInt (-5) ]}) (fresh []) =
    (Raise (ValueError "time_ms must be a positive integer"), fresh []).
Proof. reflexivity. Qed.

Example string_time_budget_rejected :
  evaluate_position ""
    ({[ "fen" := PyStr BLACK_TO_MOVE; "time_ms" := PyStr "100" ]}) (fresh []) =
    (Raise (ValueError "time_ms must be a positive integer"), fresh []).
Proof. reflexivity. Qed.

Example float_time_budget_rejected :
  evaluate_position ""
    ({[ "fen" := PyStr BLACK_TO_MOVE; "time_ms" := PyFloat (3 # 2) ]}) (fresh []) =
    (Raise (ValueError "time_ms must be a positive integer"), fresh []).
Proof. reflexivity. Qed.

Example None_time_budget_rejected :
  evaluate_position ""
    ({[ "fen" := PyStr BLACK_TO_MOVE; "time_ms" := PyNone ]}) (fresh []) =
    (Raise (ValueError "time_ms must be a positive integer"), fresh []).
Proof. reflexivity. Qed.

Lemma non_string_or_empty_position_rejected_witness :
  chess_Board "" = Raise (ValueError "empty fen") /\
  exists e,
    evaluate_position "" empty_position_input (fresh []) = (Raise e, fresh []) /\
    exc_name e = "ValueError".
Proof.
  assert (Hempty : chess_Board "" = Raise (ValueError "empty fen")) by reflexivity.
  split; [exact Hempty |].
  apply (non_string_or_empty_position_rejected "" _ _ _ Hempty).
  - reflexivity.
  - right. right. reflexivity.
Defined.

Example integer_position_rejected :
  evaluate_position "" ({[ "fen" := PyInt 5; "time_ms" := PyInt 100 ]}) (fresh []) =
    (Raise (ValueError "fen must be a string"), fresh []).
Proof. reflexivity. Qed.

Lemma unparsable_position_raises_before_engine_witness :
  exists e',
    evaluate_position "" unparsable_input (ready []) = (Raise e', ready []) /\
    e' = ValueError "expected 'w' or 'b' for turn part of fen".
Proof.
  assert (Hfen : unparsable_input !! "fen" = Some (PyStr "not-a-position"))
    by reflexivity.
  assert (Hparse : chess_Board "not-a-position" =
                     Raise (ValueError "expected 'w' or 'b' for turn part of fen"))
    by reflexivity.
  destruct (unparsable_position_raises_before_engine "" _ _ _ (ready []) Hfen Hparse)
    as (e' & Hraise & Hsame).
  exists e'. split; [exact Hraise |].
  apply Hsame. right. exists (PyInt 100).
  split; [reflexivity | constructor; lia].
Defined.

Lemma warmup_failure_is_swallowed_witness :
  _get_engine "" (fresh [Fine; Fine; Crash EngineTerminatedError]) =
    (Return 0%nat, WARM) /\
  exists r : PyVal,
    evaluate_position "" test_input WARM =
      (Return r,
       mkState (Some 0%nat) (mkProcess 1 [])
         (trace WARM ++ [EvAnalyse 0%nat (BLACK_TO_MOVE, false) (limit_of 100)])%list) /\
    field "ok" r = Some (PyBool true).
Proof.
  assert (Hslot : _engine (fresh [Fine; Fine; Crash EngineTerminatedError]) = None)
    by reflexivity.
  assert (Hpopen : popen_uci (ENGINE_PATH "")
                     (world (fresh [Fine; Fine; Crash EngineTerminatedError])) =
                   (Return 0%nat, mkProcess 1 [Fine; Crash EngineTerminatedError]))
    by reflexivity.
  assert (Hconfigure : configure 0%nat Config.STOCKFISH_CONFIG
                         (mkProcess 1 [Fine; Crash EngineTerminatedError]) =
                       (Return (), mkProcess 1 [Crash EngineTerminatedError]))
    by reflexivity.
  assert (Hwarm : analyse 0%nat chess_Board_start (mkLimit (1 # 100))
                    (mkProcess 1 [Crash EngineTerminatedError]) =
                  (Raise EngineTerminatedError, mkProcess 1 []))
    by reflexivity.
  destruct (warmup_failure_is_swallowed "" _ _ _ _ _ _ Hslot Hpopen Hconfigure Hwarm)
    as (_ & Hget & _ & _ & Hnext).
  split; [exact Hget |].
  assert (Hanalyse : analyse 0%nat (BLACK_TO_MOVE, false) (limit_of 100)
                       (mkProcess 1 []) =
                     (Return (default_info (BLACK_TO_MOVE, false)), mkProcess 1 []))
    by reflexivity.
  assert (Hscore : info_score (default_info (BLACK_TO_MOVE, false)) =
                   Some (mkPovScore (Cp 35) false))
    by reflexivity.
  exact (Hnext _ _ _ _ _ _ _ test_input_accepted debug_budget_fits_float
           Hanalyse Hscore).
Defined.

Lemma successful_analysis_is_normalized_witness :
  exists r : PyVal,
    evaluate_position "" test_input (ready [Analysis MATE_IN_ONE]) = (Return r, CRASHED) /\
    field "ok" r = Some (PyBool true) /\
    field "best_move_uci" r = Some (PyStr "d8h4") /\
    eval_type r = Some (PyStr "mate") /\
    eval_value r = Some (PyInt 1).
Proof.
  assert (Hget : _get_engine "" (ready [Analysis MATE_IN_ONE]) =
                 (Return 0%nat, ready [Analysis MATE_IN_ONE]))
    by reflexivity.
  assert (Hanalyse : engine_analyse 0%nat (BLACK_TO_MOVE, false) (limit_of 100)
                       (ready [Analysis MATE_IN_ONE]) =
                     (Return MATE_IN_ONE, CRASHED))
    by reflexivity.
  assert (Hscore : info_score MATE_IN_ONE = Some (mkPovScore (Mate 1) false))
    by reflexivity.
  destruct (successful_analysis_is_normalized "" _ _ _ _ _ _ _ _ _ _
              test_input_accepted debug_budget_fits_float Hget Hanalyse Hscore)
    as (r & Hret & Hok & Hbest & Htype & Hvalue).
  exists r. repeat split; assumption.
Defined.

Lemma missing_time_ms_defaults_witness :
  no_budget_input !! "time_ms" = None /\
  evaluate_position "" no_budget_input (fresh []) =
    evaluate_position "" (<["time_ms" := PyInt 100]> no_budget_input) (fresh []).
Proof.
  assert (Hnone : no_budget_input !! "time_ms" = None) by reflexivity.
  split; [exact Hnone |].
  destruct (missing_time_ms_defaults "" _ (fresh []) Hnone) as (_ & Hsame & _).
  exact Hsame.
Defined.

Lemma ok_result_has_eval_value_witness :
  exists n : Z,
    eval_value (result_dict "cp" (PyInt 35) (PyStr "e7e5") true) = Some (PyInt n).
Proof.
  destruct (ok_result_has_eval_value "" _ _ _ _ debug_run_cold_start) as (Hok & _).
  apply Hok. reflexivity.
Defined.

(** After a crash the next request spawns afresh, exactly once. *)
Example crash_then_fresh_spawn :
  let st1 := snd (evaluate_position "" test_input (ready [Crash EngineTerminatedError])) in
  let '(r, st2) := evaluate_position "" test_input st1 in
  _engine st1 = None /\
  r = Return (result_dict "cp" (PyInt 35) (PyStr "e7e5") true) /\
  count is_spawn (trace st2) = S (count is_spawn (trace st1)).
Proof. vm_compute. repeat split. Qed.

(** Closing twice in a row raises nothing and spawns nothing. *)
Example close_engine_twice :
  let '(r1, st1) := close_engine (ready []) in
  let '(r2, st2) := close_engine st1 in
  r1 = Return () /\ r2 = Return () /\ _engine st2 = None /\
  count is_spawn (trace st2) = 0%nat.
Proof. vm_compute. repeat split. Qed.

(** ** The lifecycle and the requests on the scripted engine *)

Lemma served_run :
  evaluate_position "" test_input (fresh []) =
    (Return (result_dict "cp" (PyInt 35) (PyStr "e7e5") true), SERVED).
Proof. vm_compute. reflexivity. Qed.

Lemma crashed_run :
  evaluate_position "" test_input (ready [Crash EngineTerminatedError]) =
    (Return FAILURE_RESULT, AFTER_CRASH).
Proof. vm_compute. reflexivity. Qed.

Lemma acquire_after_close_spawns_witness :
  close_engine (ready []) = (Return (), CLOSED) /\
  _get_engine "" CLOSED = (Return 1%nat, REOPENED) /\
  count is_spawn (trace REOPENED) = S (count is_spawn (trace CLOSED)).
Proof.
  assert (Hclose : close_engine (ready []) = (Return (), CLOSED)) by reflexivity.
  assert (Hget : _get_engine "" CLOSED = (Return 1%nat, REOPENED)) by reflexivity.
  split; [exact Hclose |]. split; [exact Hget |].
  exact (proj1 (acquire_after_close_spawns "" _ _ _ _ Hclose Hget)).
Defined.

Lemma acquire_failure_stores_nothing_witness :
  _get_engine "" (fresh [Fine; Crash EngineError]) =
    (Raise EngineError, NOT_CONFIGURED) /\
  _engine NOT_CONFIGURED = None /\
  count is_quit (trace NOT_CONFIGURED) =
    count is_quit (trace (fresh [Fine; Crash EngineError])).
Proof.
  assert (Hget : _get_engine "" (fresh [Fine; Crash EngineError]) =
                   (Raise EngineError, NOT_CONFIGURED)) by reflexivity.
  split; [exact Hget |].
  destruct (acquire_failure_stores_nothing "" _ _ _ Hget) as (_ & Hslot & Hquit & _).
  split; [exact Hslot | exact Hquit].
Defined.

Lemma only_fen_and_time_ms_are_read_witness :
  extra_key_input !! "depth" = Some (PyInt 12) /\
  test_input !! "depth" = None /\
  evaluate_position "" extra_key_input (fresh []) =
    evaluate_position "" test_input (fresh []).
Proof.
  assert (Hfen : extra_key_input !! "fen" = test_input !! "fen") by reflexivity.
  assert (Htime : extra_key_input !! "time_ms" = test_input !! "time_ms")
    by reflexivity.
  split; [reflexivity |]. split; [reflexivity |].
  exact (only_fen_and_time_ms_are_read "" _ _ (fresh []) Hfen Htime).
Defined.

Lemma boolean_time_budget_is_an_integer_witness :
  true_budget_input !! "time_ms" = Some (PyBool true) /\
  evaluate_position "" true_budget_input (ready []) =
    evaluate_position "" (<["time_ms" := PyInt 1]> true_budget_input) (ready []) /\
  accepted_request true_budget_input BLACK_TO_MOVE 1 (BLACK_TO_MOVE, false).
Proof.
  assert (Htime : true_budget_input !! "time_ms" = Some (PyBool true))
    by reflexivity.
  assert (Hfen : true_budget_input !! "fen" = Some (PyStr BLACK_TO_MOVE))
    by reflexivity.
  assert (Hboard : chess_Board BLACK_TO_MOVE = Return (BLACK_TO_MOVE, false))
    by reflexivity.
  destruct (boolean_time_budget_is_an_integer "" _ _ (ready []) Htime)
    as (Hsame & _ & Htrue).
  split; [exact Htime |]. split; [exact Hsame |].
  exact (Htrue eq_refl _ _ Hfen Hboard).
Defined.

Lemma validation_checks_position_first_witness :
  both_invalid_input !! "time_ms" = Some (PyInt 0) /\
  evaluate_position "" both_invalid_input (ready []) =
    (Raise (ValueError "fen must be a string"), ready []) /\
  evaluate_position "" zero_budget_input (ready []) =
    (Raise (ValueError "time_ms must be a positive integer"), ready []).
Proof.
  assert (Hfen : forall s : string, both_invalid_input !! "fen" <> Some (PyStr s)).
  { intros s. assert (Hint : both_invalid_input !! "fen" = Some (PyInt 5))
      by reflexivity.
    rewrite Hint. discriminate. }
  assert (Hfen0 : zero_budget_input !! "fen" = Some (PyStr BLACK_TO_MOVE))
    by reflexivity.
  assert (Htime0 : zero_budget_input !! "time_ms" = Some (PyInt 0)) by reflexivity.
  assert (Hneg : ~ positive_integer (PyInt 0)).
  { intros Hpos. apply positive_integer_int_of in Hpos. simpl in Hpos. lia. }
  split; [reflexivity |]. split.
  - exact (proj1 (validation_checks_position_first "" both_invalid_input (ready [])) Hfen).
  - exact (proj2 (validation_checks_position_first "" zero_budget_input (ready []))
             _ _ Hfen0 Htime0 Hneg).
Defined.

Lemma raise_leaves_state_untouched_witness :
  evaluate_position "" unparsable_input (ready []) =
    (Raise (ValueError "expected 'w' or 'b' for turn part of fen"), ready []) /\
  chess_Board "not-a-position" =
    Raise (ValueError "expected 'w' or 'b' for turn part of fen").
Proof.
  assert (Hraise : evaluate_position "" unparsable_input (ready []) =
                     (Raise (ValueError "expected 'w' or 'b' for turn part of fen"),
                      ready [])) by reflexivity.
  split; [exact Hraise |].
  assert (Hfits : fits_float
                    (int_of (dict_get unparsable_input "time_ms"
                               (PyInt Config.DEFAULT_TIME_MS)))) by reflexivity.
  destruct (proj2 (raise_leaves_state_untouched "" _ _ _ _ Hraise) Hfits)
    as [(Hmsg & _) | [(Hmsg & _) | (fen & Hfen & _ & Hparse)]].
  - discriminate Hmsg.
  - discriminate Hmsg.
  - assert (Hfen' : unparsable_input !! "fen" = Some (PyStr "not-a-position"))
      by reflexivity.
    rewrite Hfen' in Hfen. injection Hfen as <-. exact Hparse.
Defined.

Lemma held_engine_is_reused_witness :
  _engine (ready []) = Some 0%nat /\
  exists (r : PyVal) (st' : State) (rest : list Event),
    evaluate_position "" test_input (ready []) = (Return r, st') /\
    trace st' =
      (trace (ready []) ++
       EvAnalyse 0%nat (BLACK_TO_MOVE, false) (limit_of 100) :: rest)%list.
Proof.
  assert (Hheld : _engine (ready []) = Some 0%nat) by reflexivity.
  split; [exact Hheld |].
  destruct (held_engine_is_reused "" _ _ _ _ _ _ test_input_accepted
              debug_budget_fits_float Hheld)
    as (r & st' & rest & Hret & _ & Htrace & _).
  exists r, st', rest. split; [exact Hret | exact Htrace].
Defined.

Lemma ok_tells_whether_engine_is_held_witness :
  (field "ok" (result_dict "cp" (PyInt 35) (PyStr "e7e5") true) = Some (PyBool true) /\
   exists engine, _engine SERVED = Some engine) \/
  (result_dict "cp" (PyInt 35) (PyStr "e7e5") true = FAILURE_RESULT /\
   _engine SERVED = None).
Proof.
  exact (ok_tells_whether_engine_is_held "" _ _ _ _ served_run).
Defined.

Lemma calls_are_bounded_witness :
  exists evs : list Event,
    trace SERVED = (trace (fresh []) ++ evs)%list /\
    (count is_spawn evs <= 1)%nat /\
    (count is_analyse evs <= 2)%nat.
Proof.
  destruct (calls_are_bounded "" _ _ _ _ served_run)
    as (evs & Htrace & Hspawn & Hanalyse & _).
  exists evs. split; [exact Htrace |]. split; [exact Hspawn | exact Hanalyse].
Defined.

Lemma engine_persists_after_success_witness :
  field "ok" (result_dict "cp" (PyInt 35) (PyStr "e7e5") true) = Some (PyBool true) /\
  exists (r' : PyVal) (st2 : State) (evs : list Event),
    evaluate_position "" test_input SERVED = (Return r', st2) /\
    trace st2 = (trace SERVED ++ evs)%list /\
    count is_spawn evs = 0%nat /\
    count is_analyse evs = 1%nat.
Proof.
  assert (Hok : field "ok" (result_dict "cp" (PyInt 35) (PyStr "e7e5") true) =
                Some (PyBool true)) by reflexivity.
  split; [exact Hok |].
  exact (engine_persists_after_success "" _ _ _ _ _ _ _ _
           served_run Hok test_input_accepted debug_budget_fits_float).
Defined.

Lemma next_request_after_failure_spawns_witness :
  field "ok" FAILURE_RESULT = Some (PyBool false) /\
  exists (r' : PyVal) (st2 : State) (evs : list Event),
    evaluate_position "" test_input AFTER_CRASH = (Return r', st2) /\
    trace st2 = (trace AFTER_CRASH ++ evs)%list /\
    count is_spawn evs = 1%nat.
Proof.
  assert (Hok : field "ok" FAILURE_RESULT = Some (PyBool false)) by reflexivity.
  split; [exact Hok |].
  exact (next_request_after_failure_spawns "" _ _ _ _ _ _ _ _
           crashed_run Hok test_input_accepted debug_budget_fits_float).
Defined.

Lemma missing_score_resets_engine_witness :
  info_score NO_SCORE = None /\
  evaluate_position "" test_input (ready [Analysis NO_SCORE]) =
    (Return FAILURE_RESULT,
     mkState None (mkProcess 1 [])
       [EvAnalyse 0%nat (BLACK_TO_MOVE, false) (limit_of 100);
        EvLog EXCEPTION "ENGINE analyse failed";
        EvLog ERROR "ENGINE HARD RESET: KeyError";
        EvQuit 0%nat]).
Proof.
  assert (Hheld : _engine (ready [Analysis NO_SCORE]) = Some 0%nat) by reflexivity.
  assert (Hrun : analyse 0%nat (BLACK_TO_MOVE, false) (limit_of 100)
                   (world (ready [Analysis NO_SCORE])) =
                 (Return NO_SCORE, mkProcess 1 [])) by reflexivity.
  assert (Hscore : info_score NO_SCORE = None) by reflexivity.
  split; [exact Hscore |].
  exact (missing_score_resets_engine "" _ _ _ _ _ _ _ _
           test_input_accepted debug_budget_fits_float Hheld Hrun Hscore).
Defined.

Lemma unconfigured_process_is_never_quit_witness :
  popen_uci (ENGINE_PATH "") (world (fresh [Fine; Crash EngineError])) =
    (Return 0%nat, mkProcess 1 [Crash EngineError]) /\
  evaluate_position "" test_input (fresh [Fine; Crash EngineError]) =
    (Return FAILURE_RESULT,
     mkState None (mkProcess 1 [])
       [EvLog WARNING "ENGINE: spawning new Stockfish process";
        EvPopen "stockfish-windows-x86-64-avx2.exe";
        EvConfigure 0%nat;
        EvLog EXCEPTION "ENGINE analyse failed";
        EvLog ERROR "ENGINE HARD RESET: EngineError"]).
Proof.
  assert (Hslot : _engine (fresh [Fine; Crash EngineError]) = None) by reflexivity.
  assert (Hpopen : popen_uci (ENGINE_PATH "")
                     (world (fresh [Fine; Crash EngineError])) =
                   (Return 0%nat, mkProcess 1 [Crash EngineError])) by reflexivity.
  assert (Hconfigure : configure 0%nat Config.STOCKFISH_CONFIG
                         (mkProcess 1 [Crash EngineError]) =
                       (Raise EngineError, mkProcess 1 [])) by reflexivity.
  split; [exact Hpopen |].
  exact (unconfigured_process_is_never_quit "" _ _ _ _ _ _ _ _ _
           test_input_accepted debug_budget_fits_float Hslot Hpopen Hconfigure).
Defined.

Lemma failed_start_returns_failure_result_witness :
  popen_uci (ENGINE_PATH "") (world (fresh [Crash FileNotFoundError])) =
    (Raise FileNotFoundError, mkProcess 0 []) /\
  evaluate_position "" test_input (fresh [Crash FileNotFoundError]) =
    (Return FAILURE_RESULT,
     mkState None (mkProcess 0 [])
       [EvLog WARNING "ENGINE: spawning new Stockfish process";
        EvPopen "stockfish-windows-x86-64-avx2.exe";
        EvLog EXCEPTION "ENGINE analyse failed";
        EvLog ERROR "ENGINE HARD RESET: FileNotFoundError"]).
Proof.
  assert (Hslot : _engine (fresh [Crash FileNotFoundError]) = None) by reflexivity.
  assert (Hpopen : popen_uci (ENGINE_PATH "")
                     (world (fresh [Crash FileNotFoundError])) =
                   (Raise FileNotFoundError, mkProcess 0 [])) by reflexivity.
  split; [exact Hpopen |].
  exact (failed_start_returns_failure_result "" _ _ _ _ _ _ _
           test_input_accepted debug_budget_fits_float Hslot Hpopen).
Defined.

Lemma request_call_sequences_witness :
  exists (fen : string) (time_ms : Z) (board : Board) (evs : list Event),
    accepted_request test_input fen time_ms board /\
    trace SERVED = (trace (fresh []) ++ evs)%list /\
    request_calls "" board (limit_of time_ms) None evs (Some 0%nat).
Proof.
  exact (request_call_sequences "" _ _ _ _ served_run).
Defined.

Lemma one_process_per_request_witness :
  exists (evs : list Event) (process : option Handle),
    trace AFTER_CRASH = (trace (ready [Crash EngineTerminatedError]) ++ evs)%list /\
    Forall (fun ev => handle_of ev = None \/ handle_of ev = process) evs /\
    process = Some 0%nat.
Proof.
  destruct (one_process_per_request "" _ _ _ _ crashed_run)
    as (evs & process & Htrace & Hall & Hheld & _).
  exists evs, process. split; [exact Htrace |]. split; [exact Hall |].
  apply Hheld. reflexivity.
Defined.

Lemma analysis_limits_are_positive_witness :
  exists evs : list Event,
    trace SERVED = (trace (fresh []) ++ evs)%list /\
    Forall (fun ev =>
              forall (engine : Handle) (board : Board) (limit : Limit),
                ev = EvAnalyse engine board limit -> (0 < limit_time limit)%Q) evs.
Proof.
  destruct (analysis_limits_are_positive "" _ _ _ _ served_run)
    as (evs & Htrace & Hall).
  exists evs. split; [exact Htrace |].
  eapply Forall_impl; [exact Hall |].
  intros ev Hev engine board limit Heq. exact (proj1 (Hev engine board limit Heq)).
Defined.


(** C3.  The claim fails on the code: at most one handle is held, but more
    than one can be live.  A process that [popen_uci] started and whose
    [configure] raised is never stored, so the reset that follows finds
    the slot empty and quits nothing; the next request starts a second
    process beside it.  After the two requests the slot holds handle 1
    while handles 0 and 1 are both live. *)
Lemma unconfigured_process_stays_alive :
  evaluate_position "" test_input (fresh [Fine; Crash EngineError]) =
    (Return FAILURE_RESULT, LEAKED) /\
  evaluate_position "" test_input LEAKED =
    (Return (result_dict "cp" (PyInt 35) (PyStr "e7e5") true), TWO_STARTED) /\
  _engine TWO_STARTED = Some 1%nat /\
  quit_handles (trace TWO_STARTED) = [] /\
  live TWO_STARTED = [0%nat; 1%nat].
Proof. vm_compute. repeat split. Qed.

(** C8, the claim as stated fails: an analysis that succeeds without a
    score does not give [ok: True]; the missing score is handled as an
    engine failure. *)
Lemma scoreless_analysis_is_not_ok :
  _get_engine "" (ready [Analysis NO_SCORE]) =
    (Return 0%nat, ready [Analysis NO_SCORE]) /\
  engine_analyse 0%nat (BLACK_TO_MOVE, false) (limit_of 100)
    (ready [Analysis NO_SCORE]) = (Return NO_SCORE, CRASHED) /\
  ~ (exists (r : PyVal) (st' : State),
       evaluate_position "" test_input (ready [Analysis NO_SCORE]) = (Return r, st') /\
       field "ok" r = Some (PyBool true)).
Proof.
  split; [reflexivity |]. split; [reflexivity |].
  assert (Hrun : exists st0 : State,
            evaluate_position "" test_input (ready [Analysis NO_SCORE]) =
              (Return FAILURE_RESULT, st0)).
  { eexists. vm_compute. reflexivity. }
  destruct Hrun as (st0 & Hrun).
  intros (r & st' & Hret & Hok). rewrite Hrun in Hret.
  injection Hret as <- _. discriminate Hok.
Qed.

Lemma huge_time_budget_raises_overflow_witness :
  accepted_request huge_budget_input BLACK_TO_MOVE (10 ^ 400) (BLACK_TO_MOVE, false) /\
  ~ fits_float (10 ^ 400) /\
  evaluate_position "" huge_budget_input (ready []) =
    (Raise (OverflowError "integer division result too large for a float"), ready []).
Proof.
  assert (Hacc : accepted_request huge_budget_input BLACK_TO_MOVE (10 ^ 400)
                   (BLACK_TO_MOVE, false)).
  { split; [reflexivity | | reflexivity].
    right. exists (PyInt (10 ^ 400)).
    split; [reflexivity | split; [constructor; reflexivity | reflexivity]]. }
  assert (Hover : ~ fits_float (10 ^ 400)).
  { intros Hfits. vm_compute in Hfits. discriminate Hfits. }
  split; [exact Hacc |]. split; [exact Hover |].
  exact (huge_time_budget_raises_overflow "" _ _ _ _ (ready []) Hacc Hover).
Defined.
